(** * wikidump_downloader.py: task queue, mirror rotation, worker pool,
      manifest slicing and the verification pass.

    The Python module is embedded shallowly.  Objects that the program
    mutates ([WikiDumpTask], [wikipediaMirror], the data directory) are
    threaded explicitly; calls that can raise return an [outcome];
    integers are [Z]; strings are byte strings, which order like Python's
    code-point comparison on UTF-8 text. *)

From Stdlib Require Import ZArith Lia.
From stdpp Require Import gmap strings list sorting relations.

Local Open Scope Z_scope.

(** ** Python values, classes of exceptions, outcomes of a call *)

(** A [pathlib.Path] is identified with its string form, the content of a
    regular file with its bytes. *)
Abbreviation path := string (only parsing).
Abbreviation content := string (only parsing).
Abbreviation filesystem := (gmap string string) (only parsing).

(** The objects that flow through the tuple returned by [assign_task]. *)
Inductive pyval :=
  | PNone
  | PInt (n : Z)
  | PStr (s : string)
  | PPath (p : path).

(** [bool(v)], as used by [if not url] and [if args.proxies]. *)
Definition truthy (v : pyval) : bool :=
  match v with
  | PNone => false
  | PInt n => negb (n =? 0)
  | PStr s => negb (String.eqb s "")
  | PPath _ => true
  end.

Inductive pyclass :=
  | Exception
  | NameError
  | UnboundLocalError
  | LookupError
  | IndexError
  | KeyError
  | AttributeError
  | OSError
  | URLError
  | ContentTooShortError.

Global Instance pyclass_eq_dec : EqDecision pyclass.
Proof. solve_decision. Defined.

(** Method resolution order of the exception classes, most specific first. *)
Definition mro (c : pyclass) : list pyclass :=
  match c with
  | Exception => [Exception]
  | NameError => [NameError; Exception]
  | UnboundLocalError => [UnboundLocalError; NameError; Exception]
  | LookupError => [LookupError; Exception]
  | IndexError => [IndexError; LookupError; Exception]
  | KeyError => [KeyError; LookupError; Exception]
  | AttributeError => [AttributeError; Exception]
  | OSError => [OSError; Exception]
  | URLError => [URLError; OSError; Exception]
  | ContentTooShortError => [ContentTooShortError; URLError; OSError; Exception]
  end.

Definition issubclass (c d : pyclass) : bool := bool_decide (d ∈ mro c).

(** A call returns, raises, or waits for a lock that is held. *)
Inductive outcome (A : Type) :=
  | Returned (a : A)
  | Raised (e : pyclass)
  | Blocked.
Global Arguments Returned {A} a.
Global Arguments Raised {A} e.
Global Arguments Blocked {A}.

Definition len {A} (l : list A) : Z := Z.of_nat (length l).
Global Arguments len : simpl never.

(** [l[i]] for a list: negative indices count from the end, anything out
    of range is an [IndexError] ([None]). *)
Definition py_getitem {A} (l : list A) (i : Z) : option A :=
  if bool_decide (0 <= i < len l) then l !! Z.to_nat i
  else if bool_decide (- len l <= i < 0) then l !! Z.to_nat (i + len l)
  else None.

(** A slice bound is taken from the end when negative and clamped to
    [0 .. n]. *)
Definition slice_bound (n i : Z) : Z :=
  if i <? 0 then Z.max (i + n) 0 else Z.min i n.

(** [l[lo:hi]] and, with [hi = None], [l[lo:]]. *)
Definition py_slice {A} (l : list A) (lo : Z) (hi : option Z) : list A :=
  let a := slice_bound (len l) lo in
  let b := from_option (slice_bound (len l)) (len l) hi in
  take (Z.to_nat (b - a)) (drop (Z.to_nat a) l).

(** ** Command line *)

Record Args := {
  args_data_path : string;
  args_proxies : string;
  args_compress_type : string;
  args_threads : Z;
  args_start : Z;
  args_end : Z;
  args_verify : bool
}.

(** The defaults of the argument parser. *)
Definition default_args : Args :=
  {| args_data_path := "./data/"; args_proxies := "";
     args_compress_type := "7z"; args_threads := 3;
     args_start := 1; args_end := -1; args_verify := false |}.

(** ** Mirror selector *)

Definition WIKIMEDIA_MIRRORS : list string :=
  [ "https://dumps.wikimedia.org";
    "https://wikimedia.bringyour.com";
    "https://wikipedia.c3sl.ufpr.br";
    "https://mirror.clarkson.edu";
    "https://wikimedia.mirror.clarkson.edu";
    "https://wikipedia.mirror.pdapps.org" ].

Record wikipediaMirror := { index : Z }.

Definition wikipediaMirror_init : wikipediaMirror := {| index := 0 |}.

(** [get_mirror], over the module-level list it reads. *)
Definition get_mirror (mirrors : list string) (self : wikipediaMirror)
  : outcome string * wikipediaMirror :=
  let index' :=
    if bool_decide (index self < len mirrors - 1) then index self + 1 else 0 in
  (match py_getitem mirrors index' with
   | Some m => Returned m
   | None => Raised IndexError
   end, {| index := index' |}).

(** The mirrors returned by [n] successive calls of one caller. *)
Fixpoint get_mirrors (mirrors : list string) (n : nat) (self : wikipediaMirror)
  : list (outcome string) :=
  match n with
  | O => []
  | S n' =>
      let '(r, self') := get_mirror mirrors self in
      r :: get_mirrors mirrors n' self'
  end.



(** ** Task queue *)

Record WikiDumpTask := {
  lock : bool;                (* threading.Lock: [true] while held *)
  url_list : list string;
  file_list : list path;
  total_num : Z
}.

Definition WikiDumpTask_init (file_list : list path) (url_list : list string)
  : WikiDumpTask :=
  {| lock := false; url_list := url_list; file_list := file_list;
     total_num := len url_list |}.

(** [assign_task]: the tuple [(url, file_name, cur_progress, total_num)].
    The lock is taken on entry and released by the [finally] clause on
    every way out, also when [file_list.pop(0)] raises after
    [url_list.pop(0)] has already shortened [url_list]. *)
Definition assign_task (self : WikiDumpTask)
  : outcome (pyval * pyval * pyval * pyval) * WikiDumpTask :=
  if lock self then (Blocked, self)
  else
    if bool_decide (len (url_list self) > 0) then
      match url_list self with
      | [] => (Raised IndexError, self)
      | url :: urls =>
          match file_list self with
          | [] =>
              (Raised IndexError,
               {| lock := false; url_list := urls; file_list := [];
                  total_num := total_num self |})
          | file_name :: files =>
              (Returned (PStr url, PPath file_name,
                         PInt (total_num self - len urls),
                         PInt (total_num self)),
               {| lock := false; url_list := urls; file_list := files;
                  total_num := total_num self |})
          end
      end
    else (Returned (PNone, PNone, PNone, PInt (total_num self)), self).

(** [n] successive calls by one caller: the results, oldest first, and the
    queue they leave. *)
Fixpoint assign_tasks (n : nat) (self : WikiDumpTask)
  : list (outcome (pyval * pyval * pyval * pyval)) * WikiDumpTask :=
  match n with
  | O => ([], self)
  | S n' =>
      let '(r, self') := assign_task self in
      let '(rs, self'') := assign_tasks n' self' in
      (r :: rs, self'')
  end.

(** The queue states that calls of [assign_task] lead to. *)
Definition assign_step (q q' : WikiDumpTask) : Prop := (assign_task q).2 = q'.

(** The queue [download] builds from a list of tasks [(url, file_name)]. *)
Definition WikiDumpTask_of (l : list (string * path)) : WikiDumpTask :=
  WikiDumpTask_init l.*2 l.*1.

(** ** Library calls the program relies on *)

(** [pathlib], [hashlib] and [urllib.request] are not part of the
    program.  [joinpath d f] is [d.joinpath(f)]; [md5_digest c] is the
    hex digest of the bytes [c]; [urlretrieve n url file disk] is the
    [n]-th transfer of a run, of [url] to [file]: the exception it raises
    ([None] on success) and the directory it leaves. *)
Class Platform := {
  joinpath : path → string → path;
  md5_digest : content → string;
  urlretrieve :
    nat → string → path → filesystem → option pyclass * filesystem
}.

(** What a server does with one request. *)
Inductive response :=
  | Unreachable                   (* [urlopen] raises: no usable response *)
  | Complete (body : content)                (* the whole body arrives *)
  | Truncated (declared : nat) (body : content)
      (* Content-Length [declared], the stream ends after [body] *)
  | Interrupted (body : content).            (* reading fails after [body] *)

(** [urllib.request.urlretrieve(url, filename)]: [urlopen] raises before
    anything is written; once the headers are there the destination is
    opened with mode ['wb'] and the blocks read are written to it; a read
    error propagates, and a body shorter than the announced length raises
    [ContentTooShortError] after the file has been closed. *)
Definition std_urlretrieve (server : nat → string → response)
    (n : nat) (url : string) (file : path) (disk : filesystem)
  : option pyclass * filesystem :=
  match server n url with
  | Unreachable => (Some URLError, disk)
  | Complete body => (None, <[file := body]> disk)
  | Truncated declared body =>
      if bool_decide (String.length body < declared)%nat
      then (Some ContentTooShortError, <[file := body]> disk)
      else (None, <[file := body]> disk)
  | Interrupted body => (Some OSError, <[file := body]> disk)
  end.

(** A platform for running the model on examples: paths are joined with a
    slash, the digest of a file is its content, transfers follow
    [std_urlretrieve]. *)
Definition example_platform (server : nat → string → response) : Platform :=
  {| joinpath d f := d +:+ "/" +:+ f;
     md5_digest c := c;
     urlretrieve := std_urlretrieve server |}.

(** ** Manifest *)

(** One value of [history_dump['files']]. *)
Record dump_entry := { entry_url : string; entry_md5 : string }.

(** [history_dump['files']]: a dict, kept in insertion order. *)
Abbreviation manifest := (list (string * dump_entry)) (only parsing).

(** [dump_dict[k]]; [None] is a [KeyError]. *)
Fixpoint dict_get (d : manifest) (k : string) : option dump_entry :=
  match d with
  | [] => None
  | (k', v) :: d' => if decide (k' = k) then Some v else dict_get d' k
  end.

(** [sorted] on a list of strings. *)
Definition sorted (l : list string) : list string := merge_sort String.le l.

(** [file.exists()] *)
Definition exists_ (disk : filesystem) (file : path) : bool :=
  bool_decide (is_Some (disk !! file)).

Section program.
Context `{!Platform}.

(** [md5(file)]; [None] when the file cannot be opened. *)
Definition md5 (disk : filesystem) (file : path) : option string :=
  md5_digest <$> disk !! file.

(** ** Verification pass *)

Record verify_state := {
  pass_files : list string;
  miss_files : list string;
  crash_files : list string;
  v_disk : filesystem
}.

(** The body of the loop over [dump_dict.items()]. *)
Definition verify_step (data_path : path) (st : verify_state)
    (item : string * dump_entry) : verify_state :=
  let '(file, value) := item in
  let gt_md5 := entry_md5 value in
  let file_path := joinpath data_path file in
  match md5 (v_disk st) file_path with
  | Some file_md5 =>        (* [file_path.exists()]: the file can be read *)
      if decide (file_md5 = gt_md5) then
        {| pass_files := pass_files st ++ [file];
           miss_files := miss_files st;
           crash_files := crash_files st;
           v_disk := v_disk st |}
      else
        {| pass_files := pass_files st;
           miss_files := miss_files st;
           crash_files := crash_files st ++ [file];
           v_disk := delete file_path (v_disk st) |}
  | None =>
      {| pass_files := pass_files st;
         miss_files := miss_files st ++ [file];
         crash_files := crash_files st;
         v_disk := v_disk st |}
  end.

Definition verify_scan (dump_dict : manifest) (data_path : path)
    (disk : filesystem) : verify_state :=
  foldl (verify_step data_path)
    {| pass_files := []; miss_files := []; crash_files := [];
       v_disk := disk |}
    dump_dict.

(** [verify]: the value returned and the lists and directory behind it. *)
Definition verify (dump_dict : manifest) (data_path : path)
    (disk : filesystem) : bool * verify_state :=
  let st := verify_scan dump_dict data_path disk in
  (bool_decide (len (miss_files st) = 0 ∧ len (crash_files st) = 0), st).

(** The three counts of the summary line. *)
Definition verify_counts (st : verify_state) : Z * Z * Z :=
  (len (pass_files st), len (miss_files st), len (crash_files st)).

(** The three classes of the specification, read off a directory. *)
Inductive verdict := Passed | Crashed | Missing.

Global Instance verdict_eq_dec : EqDecision verdict.
Proof. solve_decision. Defined.

Definition classify (data_path : path) (d : filesystem)
    (item : string * dump_entry) : verdict :=
  match d !! joinpath data_path item.1 with
  | Some c =>
      if decide (md5_digest c = entry_md5 item.2) then Passed else Crashed
  | None => Missing
  end.

(** ** Coordinator: from the manifest to the task queue *)

(** The file names [download] keeps: the test reads [args.end], the
    slices use the parameters [start] and [end]. *)
Definition download_files (args : Args) (dump_dict : manifest)
    (start end_ : Z) : list string :=
  let dump_files := sorted dump_dict.*1 in
  if bool_decide (args_end args > 0 ∧ args_end args <= len dump_files)
  then py_slice dump_files (start - 1) (Some end_)
  else py_slice dump_files (start - 1) None.

(** [file_list] and [url_list] as the second loop of [download] builds
    them; [None] is the [KeyError] of [dump_dict[dump_file]]. *)
Definition download_lists (dump_dict : manifest) (data_path : path)
    (dump_files : list string) : option (list path * list string) :=
  url_list ← mapM (λ dump_file, entry_url <$> dict_get dump_dict dump_file)
                  dump_files;
  Some (joinpath data_path <$> dump_files, url_list).

Definition download_queue (args : Args) (dump_dict : manifest)
    (data_path : path) (start end_ : Z) : option WikiDumpTask :=
  '(file_list, url_list) ←
    download_lists dump_dict data_path
      (download_files args dump_dict start end_);
  Some (WikiDumpTask_init file_list url_list).

(** ** Worker *)

(** What the threads share. [requests] records the calls of
    [urlretrieve], latest first. *)
Record world := {
  tasks : WikiDumpTask;
  WM : wikipediaMirror;
  disk : filesystem;
  requests : list (string * path);
  installed_opener : option string
}.

(** Where a worker is in its code. *)
Inductive pc :=
  | Starting
  | Claiming
  | Checking (url : string) (file_name : path)
  | Retrying (url : string) (file_name : path)
  | Fetching (dump_url : string) (url : string) (file_name : path)
  | Exited
  | Died (e : pyclass).

Definition running (p : pc) : bool :=
  match p with
  | Exited | Died _ => false
  | _ => true
  end.

(** One step of [worker]: the prologue up to [install_opener], one call
    of [assign_task], the existence check, one call of [get_mirror], or
    one call of [urlretrieve]. *)
Definition worker_step (args : Args) (p : pc) (w : world) : pc * world :=
  match p with
  | Starting =>
      (* the local [opener] is bound only in the branch of [if args.proxies] *)
      let opener :=
        if truthy (PStr (args_proxies args))
        then Some (args_proxies args) else None in
      match opener with
      | None => (Died UnboundLocalError, w)
      | Some o =>
          (Claiming,
           {| tasks := tasks w; WM := WM w; disk := disk w;
              requests := requests w; installed_opener := Some o |})
      end
  | Claiming =>
      match assign_task (tasks w) with
      | (Blocked, _) => (Claiming, w)
      | (Raised e, q) =>
          (Died e,
           {| tasks := q; WM := WM w; disk := disk w;
              requests := requests w;
              installed_opener := installed_opener w |})
      | (Returned (url, file_name, _, _), q) =>
          let w' :=
            {| tasks := q; WM := WM w; disk := disk w;
               requests := requests w;
               installed_opener := installed_opener w |} in
          if negb (truthy url) then (Exited, w')
          else
            match url, file_name with
            | PStr u, PPath f => (Checking u f, w')
            | _, _ => (Died AttributeError, w')
            end
      end
  | Checking url file_name =>
      if negb (exists_ (disk w) file_name) then (Retrying url file_name, w)
      else (Claiming, w)
  | Retrying url file_name =>
      let '(r, wm) := get_mirror WIKIMEDIA_MIRRORS (WM w) in
      let w' :=
        {| tasks := tasks w; WM := wm; disk := disk w;
           requests := requests w;
           installed_opener := installed_opener w |} in
      match r with
      | Returned m => (Fetching (m +:+ url) url file_name, w')
      | Raised e =>
          if issubclass e Exception then (Retrying url file_name, w')
          else (Died e, w')
      | Blocked => (Retrying url file_name, w')
      end
  | Fetching dump_url url file_name =>
      let '(r, d) :=
        urlretrieve (length (requests w)) dump_url file_name (disk w) in
      let w' :=
        {| tasks := tasks w; WM := WM w; disk := d;
           requests := (dump_url, file_name) :: requests w;
           installed_opener := installed_opener w |} in
      match r with
      | None => (Claiming, w')
      | Some e =>
          if issubclass e Exception then (Retrying url file_name, w')
          else (Died e, w')
      end
  | Exited => (Exited, w)
  | Died e => (Died e, w)
  end.

(** The pool: any thread that has not finished takes the next step. *)
Inductive pool_step (args : Args) : relation (list pc * world) :=
  | pool_step_thread i p p' ts w w' :
      ts !! i = Some p →
      running p = true →
      worker_step args p w = (p', w') →
      pool_step args (ts, w) (<[i := p']> ts, w').

(** [download] after the manifest is read: the queue and [thread_num]
    workers about to start. *)
Definition download (args : Args) (dump_dict : manifest) (data_path : path)
    (start end_ thread_num : Z) (wm : wikipediaMirror) (d : filesystem)
  : option (list pc * world) :=
  task ← download_queue args dump_dict data_path start end_;
  Some (replicate (Z.to_nat thread_num) Starting,
        {| tasks := task; WM := wm; disk := d; requests := [];
           installed_opener := None |}).

(** A worker that is outside its retry loop and, when it is about to
    test a path, will find it in [d]. *)
Definition skipping (d : filesystem) (p : pc) : Prop :=
  match p with
  | Checking _ file_name => exists_ d file_name = true
  | Retrying _ _ | Fetching _ _ _ => False
  | _ => True
  end.

(** One worker run alone for at most [fuel] steps. *)
Fixpoint worker (fuel : nat) (args : Args) (p : pc) (w : world) : pc * world :=
  match fuel with
  | O => (p, w)
  | S fuel' =>
      if running p then
        let '(p', w') := worker_step args p w in worker fuel' args p' w'
      else (p, w)
  end.
End program.

(** ** The chunked read of [md5] *)

(** The first [n] bytes of a string and what follows them. *)
Fixpoint string_take (n : nat) (s : string) : string :=
  match n, s with
  | S n', String a s' => String a (string_take n' s')
  | _, _ => ""
  end.

Fixpoint string_drop (n : nat) (s : string) : string :=
  match n, s with
  | S n', String _ s' => string_drop n' s'
  | _, _ => s
  end.

(** [f.read(size)] on a file opened with ['rb'] of which [rest] is still
    unread: the bytes returned and the bytes left. *)
Definition read (size : nat) (rest : content) : content * content :=
  (string_take size rest, string_drop size rest).

(** [iter(lambda: f.read(size), b"")]: the chunks up to, and without, the
    first empty one. [fuel] bounds the number of reads. *)
Fixpoint read_chunks (fuel size : nat) (rest : content) : list content :=
  match fuel with
  | O => []
  | S fuel' =>
      let '(chunk, rest') := read size rest in
      if decide (chunk = "") then []
      else chunk :: read_chunks fuel' size rest'
  end.

(** The size [md5] reads at a time. *)
Definition chunk_size : nat := Z.to_nat 40960000.

(** A [hashlib] hash object: [hashlib.md5()], [update] and [hexdigest]. *)
Class Hash := {
  hash_state : Type;
  hash_new : hash_state;
  hash_update : hash_state → content → hash_state;
  hash_hexdigest : hash_state → string
}.

(** [md5(file)] as the loop runs: open the file, feed the chunks to the
    hash object one after the other, return the hex digest; [None] when
    the file cannot be opened. Reading a file of [n] bytes takes at most
    [n + 1] reads. *)
Definition md5_file `{!Hash} (disk : filesystem) (file : path) : option string :=
  c ← disk !! file;
  Some (hash_hexdigest
          (foldl hash_update hash_new
             (read_chunks (S (String.length c)) chunk_size c))).

(** ** [main] *)

(** How [main] ends: with an exception of [mkdir], of the transfer of the
    manifest or of reading it, with the marker found, after [verify], or
    with the pool that [download] starts. *)
Inductive main_outcome :=
  | MkdirFailed
  | FetchFailed (e : pyclass) (d : filesystem)
  | ManifestUnreadable (d : filesystem)
  | AlreadyComplete (data : content) (d : filesystem)
  | Verified (result : bool) (d : filesystem)
  | Downloading (pool : list pc * world).

Section program_main.
Context `{!Platform}.

(** [json_files c t] is
    [json.load(...)['jobs']['metahistory' + t + 'dump']['files']] on a
    file of content [c], [None] when that raises. *)
Variable json_files : content → string → option (list (string * dump_entry)).

(** [main]. [version_flag] is [now.strftime('%Y%m01')] and [stamp] is
    [str(datetime.now())] at the time the marker is written. The
    directory model holds regular files only: [mkdir(exist_ok=True)]
    fails when the path is one of them, and the parent directory is
    taken to be there. The transfer of the manifest is transfer 0 of the
    run and stays on the record of the pool. *)
Definition main (args : Args) (version_flag stamp : string) (d : filesystem)
  : main_outcome :=
  let data_path := joinpath (args_data_path args) version_flag in
  if exists_ d data_path then MkdirFailed
  else
    let dump_status_file := joinpath data_path "dumpstatus.json" in
    let url :=
      "https://dumps.wikimedia.org/enwiki/" +:+ version_flag
        +:+ "/dumpstatus.json" in
    let '(r, d1, fetched) :=
      if negb (exists_ d dump_status_file)
      then (urlretrieve 0 url dump_status_file d, [(url, dump_status_file)])
      else (None, d, []) in
    match r with
    | Some e => FetchFailed e d1
    | None =>
        let space_stats_flag := joinpath data_path "COMPLETE.txt" in
        match d1 !! space_stats_flag with
        | Some data => AlreadyComplete data d1
        | None =>
            match d1 !! dump_status_file
                  ≫= (λ c, json_files c (args_compress_type args)) with
            | None => ManifestUnreadable d1
            | Some dump_dict =>
                if args_verify args then
                  let '(result, st) := verify dump_dict data_path d1 in
                  Verified result
                    (if result
                     then <[space_stats_flag := stamp]> (v_disk st)
                     else v_disk st)
                else
                  match download args dump_dict data_path (args_start args)
                          (args_end args) (args_threads args)
                          wikipediaMirror_init d1 with
                  | None => ManifestUnreadable d1
                  | Some (ts, w) =>
                      Downloading
                        (ts,
                         {| tasks := tasks w; WM := WM w; disk := disk w;
                            requests := requests w ++ fetched;
                            installed_opener := installed_opener w |})
                  end
            end
        end
    end.
End program_main.

(** The task a worker has claimed and not yet finished. *)
Definition held (p : pc) : option (string * path) :=
  match p with
  | Checking url file_name | Retrying url file_name
  | Fetching _ url file_name => Some (url, file_name)
  | _ => None
  end.

(** ** Example data *)

(** One task whose file is already in the directory. *)
Definition downloaded_world : world :=
  {| tasks := WikiDumpTask_of [("/enwiki/A.7z", "data/A.7z")];
     WM := wikipediaMirror_init; disk := <["data/A.7z" := "aaa"]> ∅;
     requests := []; installed_opener := None |}.

(** A server that never answers. *)
Definition offline : nat → string → response := λ _ _, Unreachable.

(** A server that announces ten bytes and closes after four. *)
Definition truncating : nat → string → response :=
  λ _ _, Truncated 10 "part".

(** A server whose first two answers fail and whose third is complete. *)
Definition flaky : nat → string → response :=
  λ n _,
    match n with
    | O => Unreachable
    | S O => Interrupted "pa"
    | _ => Complete "whole"
    end.

(** One task, nothing on disk, an opener installed or not. *)
Definition one_task_world : world :=
  {| tasks := WikiDumpTask_of [("/enwiki/A.7z", "data/A.7z")];
     WM := wikipediaMirror_init; disk := ∅; requests := [];
     installed_opener := None |}.

(** A manifest with three files, and a directory holding the first and the
    third with the content the manifest expects. *)
Definition example_manifest : list (string * dump_entry) :=
  [ ("A.7z", {| entry_url := "/enwiki/A.7z"; entry_md5 := "aaa" |});
    ("B.7z", {| entry_url := "/enwiki/B.7z"; entry_md5 := "bbb" |});
    ("C.7z", {| entry_url := "/enwiki/C.7z"; entry_md5 := "ccc" |}) ].

Definition example_disk : gmap string string :=
  <["data/A.7z" := "aaa"]> (<["data/C.7z" := "ccc"]> ∅).

(** Five files, not in alphabetical order in the manifest. *)
Definition five_manifest : list (string * dump_entry) :=
  [ ("p3.7z", {| entry_url := "/enwiki/p3.7z"; entry_md5 := "3" |});
    ("p1.7z", {| entry_url := "/enwiki/p1.7z"; entry_md5 := "1" |});
    ("p5.7z", {| entry_url := "/enwiki/p5.7z"; entry_md5 := "5" |});
    ("p2.7z", {| entry_url := "/enwiki/p2.7z"; entry_md5 := "2" |});
    ("p4.7z", {| entry_url := "/enwiki/p4.7z"; entry_md5 := "4" |}) ].

(** [--proxies http://proxy:3128 --start 2 --end 4] *)
Definition example_args : Args :=
  {| args_data_path := "./data/"; args_proxies := "http://proxy:3128";
     args_compress_type := "7z"; args_threads := 3;
     args_start := 2; args_end := 4; args_verify := false |}.

(** The same directory with a damaged second file. *)
Definition damaged_disk : gmap string string :=
  <["data/B.7z" := "b"]> example_disk.

(** The directory with all three files as the manifest expects them. *)
Definition complete_disk : gmap string string :=
  <["data/B.7z" := "bbb"]> example_disk.

(** A server that always sends the whole file. *)
Definition reliable : nat → string → response := λ _ _, Complete "whole".



(** [--proxies http://proxy:3128], everything else by default. *)
Definition proxy_args : Args :=
  {| args_data_path := "./data/"; args_proxies := "http://proxy:3128";
     args_compress_type := "7z"; args_threads := 3;
     args_start := 1; args_end := -1; args_verify := false |}.

(** [--start 0], everything else by default. *)
Definition start_zero_args : Args :=
  {| args_data_path := "./data/"; args_proxies := "";
     args_compress_type := "7z"; args_threads := 3;
     args_start := 0; args_end := -1; args_verify := false |}.

(** A hash object for examples: the state is what has been fed to it. *)
Definition concat_hash : Hash :=
  {| hash_state := string; hash_new := "";
     hash_update s c := s +:+ c; hash_hexdigest s := s |}.

(** [--verify], everything else by default. *)
Definition verify_args : Args :=
  {| args_data_path := "./data/"; args_proxies := "";
     args_compress_type := "7z"; args_threads := 3;
     args_start := 1; args_end := -1; args_verify := true |}.

(** A data directory of January 2024 with the manifest file and the three
    files of [example_manifest], and the same with the marker. *)
Definition verified_dir : gmap string string :=
  <["./data//20240101/dumpstatus.json" := "{}"]>
    (<["./data//20240101/A.7z" := "aaa"]>
       (<["./data//20240101/B.7z" := "bbb"]>
          (<["./data//20240101/C.7z" := "ccc"]> ∅))).

Definition marked_dir : gmap string string :=
  <["./data//20240101/COMPLETE.txt" := "2024-01-02 03:04:05"]> verified_dir.

(** A manifest file that lists [example_manifest] for the 7z dump. *)
Definition example_json : string → string → option (list (string * dump_entry)) :=
  λ _ t, if decide (t = "7z") then Some example_manifest else None.

(** * Properties *)

(** ** Task queue *)

Lemma len_cons {A} (x : A) (l : list A) : len (x :: l) = len l + 1.
Proof. unfold len. simpl. lia. Qed.

Lemma len_nonneg {A} (l : list A) : 0 <= len l.
Proof. unfold len. lia. Qed.

Lemma len_nil_inv {A} (l : list A) : len l = 0 → l = [].
Proof. destruct l; [done | rewrite len_cons; pose proof (len_nonneg l); lia]. Qed.

Lemma assign_task_empty (q : WikiDumpTask) :
  lock q = false → url_list q = [] →
  assign_task q = (Returned (PNone, PNone, PNone, PInt (total_num q)), q).
Proof.
  intros Hl Hu. unfold assign_task. rewrite Hl, Hu.
  rewrite bool_decide_false; [done | unfold len; simpl; lia].
Qed.

Lemma assign_task_cons (u : string) (f : path) us fs t :
  assign_task {| lock := false; url_list := u :: us; file_list := f :: fs;
                 total_num := t |} =
  (Returned (PStr u, PPath f, PInt (t - len us), PInt t),
   {| lock := false; url_list := us; file_list := fs; total_num := t |}).
Proof.
  unfold assign_task; cbn [lock url_list file_list total_num].
  rewrite bool_decide_true; [done | rewrite len_cons; pose proof (len_nonneg us); lia].
Qed.

(** Whatever the lists, a call on a free lock keeps [total_num], leaves the
    lock free and removes the head of [url_list], if there is one. *)
Lemma assign_task_state (q : WikiDumpTask) :
  lock q = false →
  lock (assign_task q).2 = false ∧
  total_num (assign_task q).2 = total_num q ∧
  url_list (assign_task q).2 = tail (url_list q).
Proof.
  intros Hl. unfold assign_task. rewrite Hl.
  destruct (url_list q) as [|u us] eqn:Hu.
  - rewrite bool_decide_false by (unfold len; simpl; lia). simpl. by rewrite Hu.
  - rewrite bool_decide_true by (rewrite len_cons; pose proof (len_nonneg us); lia).
    by destruct (file_list q).
Qed.

Lemma assign_tasks_app (l1 l2 : list (string * path)) (t : Z) :
  assign_tasks (length l1)
    {| lock := false; url_list := (l1 ++ l2).*1; file_list := (l1 ++ l2).*2;
       total_num := t |} =
  (imap (λ k '(u, f),
      Returned (PStr u, PPath f,
                PInt (t - len (l1 ++ l2) + Z.of_nat k + 1), PInt t)) l1,
   {| lock := false; url_list := l2.*1; file_list := l2.*2; total_num := t |}).
Proof.
  induction l1 as [|[u f] l1 IH]; [done|].
  cbn [length assign_tasks fmap list_fmap fst snd imap app].
  rewrite assign_task_cons, IH. f_equal. f_equal.
  - replace (t - len ((u, f) :: l1 ++ l2) + Z.of_nat 0 + 1)
      with (t - len (l1 ++ l2).*1);
      [done | rewrite len_cons; unfold len; rewrite length_fmap; lia].
  - apply imap_ext. intros k [u' f'] _. unfold compose. cbn beta iota.
    replace (t - len ((u, f) :: l1 ++ l2) + Z.of_nat (S k) + 1)
      with (t - len (l1 ++ l2) + Z.of_nat k + 1); [done | rewrite len_cons; lia].
Qed.

(** The queue after [k] calls, for [k] within the list. *)
Lemma assign_tasks_prefix (l : list (string * path)) (k : nat) :
  (k ≤ length l)%nat →
  assign_tasks k (WikiDumpTask_of l) =
  (imap (λ i '(u, f),
      Returned (PStr u, PPath f, PInt (Z.of_nat i + 1), PInt (len l)))
     (take k l),
   {| lock := false; url_list := (drop k l).*1; file_list := (drop k l).*2;
      total_num := len l |}).
Proof.
  intros Hk. unfold WikiDumpTask_of, WikiDumpTask_init.
  replace (len l.*1) with (len l) by (unfold len; by rewrite length_fmap).
  rewrite <- (take_drop k l) at 1 2.
  replace k with (length (take k l)) at 1 by (rewrite length_take; lia).
  rewrite assign_tasks_app, take_drop. f_equal.
  apply imap_ext. intros i [u f] _. cbn beta iota.
  by replace (len l - len l + Z.of_nat i + 1) with (Z.of_nat i + 1) by lia.
Qed.

Lemma tail_drop {A} (l : list A) (n : nat) : tail (drop n l) = drop (S n) l.
Proof.
  revert l. induction n as [|n IH]; intros [|x l]; try done. apply IH.
Qed.

Lemma assign_step_reachable (files urls : list string) (q : WikiDumpTask) :
  rtc assign_step (WikiDumpTask_init files urls) q →
  lock q = false ∧ total_num q = len urls ∧
  ∃ n, url_list q = drop n urls.
Proof.
  revert q. apply rtc_ind_r.
  - repeat split; [done..|]. by exists 0%nat.
  - intros q q' _ Hstep (Hl & Ht & n & Hn).
    destruct (assign_task_state q Hl) as (Hl' & Ht' & Hu').
    unfold assign_step in Hstep. subst q'.
    repeat split; [done | congruence |].
    exists (S n). by rewrite Hu', Hn, tail_drop.
Qed.

(** C1. A queue built from a list of [N] tasks hands them out in order:
    the first [N] calls of [assign_task] all return a task, the tasks
    returned are the list from front to back, the [k]-th of them comes
    with position [k] (counted from 1) and with the total [N]; the
    position is [total_num] minus the number of tasks left after the
    removal, and the queue is empty after the [N]-th call. *)
Theorem assign_task_hands_out_in_order (l : list (string * path)) :
  (assign_tasks (length l) (WikiDumpTask_of l)).1 =
    imap (λ k '(u, f),
        Returned (PStr u, PPath f, PInt (Z.of_nat k + 1), PInt (len l))) l
  ∧ url_list (assign_tasks (length l) (WikiDumpTask_of l)).2 = []
  ∧ ∀ (k : nat) (u : string) (f : path),
      l !! k = Some (u, f) →
      let before := (assign_tasks k (WikiDumpTask_of l)).2 in
      let after := (assign_task before).2 in
      (assign_task before).1 =
        Returned (PStr u, PPath f,
                  PInt (total_num after - len (url_list after)),
                  PInt (len l))
      ∧ total_num after - len (url_list after) = Z.of_nat k + 1
      ∧ total_num after = len l.
Proof.
  split_and!.
  - rewrite assign_tasks_prefix by done. by rewrite firstn_all.
  - rewrite assign_tasks_prefix by done. by rewrite drop_all.
  - intros k u f Hk before after. subst after before.
    rewrite assign_tasks_prefix by (apply lookup_lt_Some in Hk; lia).
    cbn [snd]. rewrite (drop_S _ _ _ Hk). cbn [fmap list_fmap fst snd].
    rewrite assign_task_cons. cbn [fst snd total_num url_list].
    assert (len (drop (S k) l).*1 = len l - Z.of_nat k - 1) as ->.
    { unfold len. rewrite length_fmap, length_drop.
      apply lookup_lt_Some in Hk. lia. }
    split_and!; [done | lia | done].
Qed.

Lemma assign_task_hands_out_in_order_witness :
  [("/a.7z", "data/a.7z"); ("/b.7z", "data/b.7z")] !! 1%nat
    = Some ("/b.7z", "data/b.7z")
  ∧ (assign_task
       (assign_tasks 1 (WikiDumpTask_of
          [("/a.7z", "data/a.7z"); ("/b.7z", "data/b.7z")])).2).1
    = Returned (PStr "/b.7z", PPath "data/b.7z", PInt 2, PInt 2).
Proof.
  split; [reflexivity|].
  exact (proj1 (proj2 (proj2 (assign_task_hands_out_in_order
    [("/a.7z", "data/a.7z"); ("/b.7z", "data/b.7z")]))
    1%nat "/b.7z" "data/b.7z" eq_refl)).
Defined.

(** C3 as stated fails: a queue built from one task and drained by one
    call has an empty remaining list, and the next call returns the total
    [1] as its fourth output, which is not a void value. *)
Lemma assign_task_empty_total_not_void :
  let q := (assign_tasks 1 (WikiDumpTask_of [("/a.7z", "data/a.7z")])).2 in
  url_list q = []
  ∧ assign_task q = (Returned (PNone, PNone, PNone, PInt 1), q)
  ∧ PInt 1 ≠ PNone
  ∧ ¬ (∀ q : WikiDumpTask, lock q = false → url_list q = [] →
         (assign_task q).1 = Returned (PNone, PNone, PNone, PNone)).
Proof.
  split_and!; [reflexivity | reflexivity | discriminate |].
  intros H.
  specialize (H (assign_tasks 1 (WikiDumpTask_of [("/a.7z", "data/a.7z")])).2
                eq_refl eq_refl).
  vm_compute in H. discriminate H.
Qed.

(** C3, amended. In every state that calls of [assign_task] lead to and in
    which no URL is left, [assign_task] returns (it neither waits for the
    lock nor raises), leaves the queue as it is, and returns [None] for
    the URL, the file name and the position; the fourth output is the
    total captured at construction. *)
Theorem assign_task_on_empty_queue (files urls : list string) (q : WikiDumpTask) :
  rtc assign_step (WikiDumpTask_init files urls) q →
  url_list q = [] →
  assign_task q = (Returned (PNone, PNone, PNone, PInt (len urls)), q).
Proof.
  intros Hr He. destruct (assign_step_reachable _ _ _ Hr) as (Hl & Ht & _).
  rewrite <- Ht. by apply assign_task_empty.
Qed.

Lemma assign_task_on_empty_queue_witness :
  assign_task (WikiDumpTask_init [] []) =
    (Returned (PNone, PNone, PNone, PInt 0), WikiDumpTask_init [] []).
Proof.
  exact (assign_task_on_empty_queue [] [] (WikiDumpTask_init [] [])
           (rtc_refl _ _) eq_refl).
Defined.

(** C9. In every state that calls of [assign_task] lead to from the
    constructor, [total_num] is the length of the list the queue was
    built from; a call leaves [total_num] alone and either finds no URL
    left and changes nothing, or removes exactly one; the number of URLs
    left never exceeds the original length and is zero after as many
    calls as there were URLs. *)
Theorem total_fixed_remaining_decreases (files urls : list string) (q : WikiDumpTask) :
  rtc assign_step (WikiDumpTask_init files urls) q →
  total_num q = len urls
  ∧ 0 <= len (url_list q) <= len urls
  ∧ total_num (assign_task q).2 = total_num q
  ∧ (url_list q = [] → (assign_task q).2 = q)
  ∧ (url_list q ≠ [] →
       len (url_list (assign_task q).2) = len (url_list q) - 1)
  ∧ url_list (assign_tasks (length urls) (WikiDumpTask_init files urls)).2 = [].
Proof.
  intros Hr. destruct (assign_step_reachable _ _ _ Hr) as (Hl & Ht & n & Hn).
  destruct (assign_task_state q Hl) as (Hl' & Ht' & Hu').
  split; [done|].
  split; [rewrite Hn; unfold len; rewrite length_drop; lia|].
  split; [done|]. split; [|split].
  - intros He. by rewrite assign_task_empty.
  - intros Hne. rewrite Hu'. destruct (url_list q); [done|].
    rewrite len_cons. simpl. lia.
  - clear.
    assert (∀ k q0, lock q0 = false →
              lock (assign_tasks k q0).2 = false ∧
              url_list (assign_tasks k q0).2 = drop k (url_list q0)) as Hk.
    { induction k as [|k IH]; intros q0 Hl0; [by split|].
      destruct (assign_task_state q0 Hl0) as (Hl1 & _ & Hu1).
      cbn [assign_tasks]. destruct (assign_task q0) as [r q1] eqn:E1.
      cbn [snd] in *. destruct (IH q1 Hl1) as [Hl2 Hu2].
      destruct (assign_tasks k q1) as [rs q2]. cbn [snd] in *.
      split; [done|]. rewrite Hu2, Hu1.
      destruct (url_list q0); [by destruct k | done]. }
    destruct (Hk (length urls) (WikiDumpTask_init files urls) eq_refl) as [_ ->].
    by rewrite drop_all.
Qed.

Lemma total_fixed_remaining_decreases_witness :
  let q0 := WikiDumpTask_init ["data/a.7z"; "data/b.7z"] ["/a.7z"; "/b.7z"] in
  rtc assign_step q0 (assign_task q0).2
  ∧ total_num (assign_task q0).2 = 2
  ∧ len (url_list (assign_task (assign_task q0).2).2) = 0.
Proof.
  assert (rtc assign_step
            (WikiDumpTask_init ["data/a.7z"; "data/b.7z"] ["/a.7z"; "/b.7z"])
            (assign_task (WikiDumpTask_init ["data/a.7z"; "data/b.7z"]
                                            ["/a.7z"; "/b.7z"])).2) as Hr.
  { apply rtc_once. reflexivity. }
  split_and!; [exact Hr | |].
  - exact (proj1 (total_fixed_remaining_decreases _ _ _ Hr)).
  - reflexivity.
Defined.

(** ** Mirror selector *)

Lemma len_pos {A} (l : list A) : l ≠ [] → 0 < len l.
Proof. destruct l; [done | rewrite len_cons; pose proof (len_nonneg l); lia]. Qed.

Lemma py_getitem_in_range {A} (l : list A) (i : Z) :
  0 <= i < len l → py_getitem l i = l !! Z.to_nat i ∧ is_Some (l !! Z.to_nat i).
Proof.
  intros Hi. unfold py_getitem. rewrite bool_decide_true by done.
  split; [done|]. apply lookup_lt_is_Some. unfold len in Hi. lia.
Qed.









(** The program's six mirrors: the calls return indices 1, 2, 3, 4, 5, 0
    and then start over. *)
Example WIKIMEDIA_MIRRORS_rotation :
  get_mirrors WIKIMEDIA_MIRRORS 7 wikipediaMirror_init =
  [ Returned "https://wikimedia.bringyour.com";
    Returned "https://wikipedia.c3sl.ufpr.br";
    Returned "https://mirror.clarkson.edu";
    Returned "https://wikimedia.mirror.clarkson.edu";
    Returned "https://wikipedia.mirror.pdapps.org";
    Returned "https://dumps.wikimedia.org";
    Returned "https://wikimedia.bringyour.com" ].
Proof. reflexivity. Qed.

(** ** Verification pass *)

Lemma filter_ext_elem {A} (P1 P2 : A → Prop)
    `{!∀ x, Decision (P1 x), !∀ x, Decision (P2 x)} (l : list A) :
  (∀ x, x ∈ l → P1 x ↔ P2 x) → filter P1 l = filter P2 l.
Proof.
  induction l as [|a l IH]; intros Hext; [done|].
  assert (filter P1 l = filter P2 l) as E
    by (apply IH; intros x Hx; apply Hext; by right).
  destruct (decide (P1 a)) as [Ha|Ha].
  - rewrite !filter_cons_True, E; [done | | done]. apply Hext; [left | done].
  - rewrite !filter_cons_False, E; [done | | done].
    intros Ha'. apply Ha, Hext; [left | done].
Qed.

Lemma lookup_foldl_delete (ps : list string) (d : gmap string string) (q : string) :
  foldl (λ d p, delete p d) d ps !! q =
  if decide (q ∈ ps) then None else d !! q.
Proof.
  revert d. induction ps as [|p ps IH]; intros d; cbn [foldl].
  - by rewrite decide_False by apply not_elem_of_nil.
  - rewrite IH.
    destruct (decide (q ∈ ps)) as [Hin|Hin],
             (decide (q ∈ p :: ps)) as [Hin'|Hin']; try done.
    + exfalso. apply Hin'. by right.
    + apply elem_of_cons in Hin' as [->|?]; [apply lookup_delete_eq | done].
    + apply lookup_delete_ne. intros ->. apply Hin'. left.
Qed.

Section verify_props.
Context `{!Platform}.
Implicit Types (m : list (string * dump_entry)) (st : verify_state).

(** What one entry does, by its class in the directory at that moment. *)
Lemma verify_step_classify (dp : string) st (file : string) (value : dump_entry) :
  verify_step dp st (file, value) =
  match classify dp (v_disk st) (file, value) with
  | Passed =>
      {| pass_files := pass_files st ++ [file]; miss_files := miss_files st;
         crash_files := crash_files st; v_disk := v_disk st |}
  | Crashed =>
      {| pass_files := pass_files st; miss_files := miss_files st;
         crash_files := crash_files st ++ [file];
         v_disk := delete (joinpath dp file) (v_disk st) |}
  | Missing =>
      {| pass_files := pass_files st; miss_files := miss_files st ++ [file];
         crash_files := crash_files st; v_disk := v_disk st |}
  end.
Proof.
  unfold verify_step, classify, md5. cbn [fst snd].
  destruct (v_disk st !! joinpath dp file) as [c|]; cbn [fmap option_fmap option_map];
    [|done].
  by case_decide.
Qed.

(** The loop only appends to the three lists, one name per entry, and
    only deletes, and only at paths of its entries. *)
Lemma verify_loop_shape (dp : string) m st :
  let st' := foldl (verify_step dp) st m in
  ∃ ps ms cs,
    pass_files st' = pass_files st ++ ps
    ∧ miss_files st' = miss_files st ++ ms
    ∧ crash_files st' = crash_files st ++ cs
    ∧ ps ++ ms ++ cs ≡ₚ m.*1
    ∧ (∀ q, v_disk st !! q = None → v_disk st' !! q = None)
    ∧ (∀ q, q ∉ joinpath dp <$> m.*1 → v_disk st' !! q = v_disk st !! q)
    ∧ v_disk st' = foldl (λ d p, delete p d) (v_disk st) (joinpath dp <$> cs).
Proof.
  revert st. induction m as [|[file value] m IH]; intros st; cbn [foldl].
  - exists [], [], []. by rewrite !app_nil_r.
  - destruct (IH (verify_step dp st (file, value)))
      as (ps & ms & cs & Hp & Hm & Hc & Hperm & Hnone & Hframe & Hdel).
    cbn zeta. rewrite Hp, Hm, Hc. clear Hp Hm Hc.
    assert (∀ q, q ∉ joinpath dp <$> ((file, value) :: m).*1 →
              q ≠ joinpath dp file ∧ q ∉ joinpath dp <$> m.*1) as Hsplit.
    { intros q Hq. cbn [fmap list_fmap fst] in Hq.
      apply not_elem_of_cons in Hq. done. }
    rewrite verify_step_classify in *.
    destruct (classify dp (v_disk st) (file, value));
      cbn [pass_files miss_files crash_files v_disk] in *.
    + exists (file :: ps), ms, cs. rewrite <- !app_assoc.
      split_and!; [done.. | | done | | done].
      * cbn [fmap list_fmap fst app]. by constructor.
      * intros q Hq. apply Hframe. by apply Hsplit.
    + exists ps, ms, (file :: cs). rewrite <- !app_assoc.
      split_and!; [done.. | | | | done].
      * cbn [fmap list_fmap fst]. rewrite <- Hperm. symmetry.
        rewrite !app_assoc. apply Permutation_middle.
      * intros q Hq. apply Hnone.
        destruct (decide (q = joinpath dp file)) as [->|Hne];
          [apply lookup_delete_eq | by rewrite lookup_delete_ne].
      * intros q Hq. destruct (Hsplit q Hq) as [Hne Hq'].
        rewrite Hframe by done. by rewrite lookup_delete_ne.
    + exists ps, (file :: ms), cs. rewrite <- !app_assoc.
      split_and!; [done.. | | done | | done].
      * cbn [fmap list_fmap fst]. rewrite <- Hperm. symmetry.
        apply Permutation_middle.
      * intros q Hq. apply Hframe. by apply Hsplit.
Qed.

(** When the entries name pairwise distinct paths, every entry is judged
    as the starting directory has it. *)
Lemma verify_loop_classify (dp : string) m st :
  NoDup (joinpath dp <$> m.*1) →
  foldl (verify_step dp) st m =
  {| pass_files :=
       pass_files st ++ (filter (λ it, classify dp (v_disk st) it = Passed) m).*1;
     miss_files :=
       miss_files st ++ (filter (λ it, classify dp (v_disk st) it = Missing) m).*1;
     crash_files :=
       crash_files st ++ (filter (λ it, classify dp (v_disk st) it = Crashed) m).*1;
     v_disk :=
       foldl (λ d p, delete p d) (v_disk st)
         (joinpath dp <$>
            (filter (λ it, classify dp (v_disk st) it = Crashed) m).*1) |}.
Proof.
  revert st. induction m as [|[file value] m IH]; intros st Hnd.
  - cbn. rewrite !app_nil_r. by destruct st.
  - cbn [fmap list_fmap fst] in Hnd. apply NoDup_cons in Hnd as [Hfresh Hnd].
    cbn [foldl]. rewrite IH by done. clear IH.
    assert (v_disk (verify_step dp st (file, value)) = v_disk st
            ∨ v_disk (verify_step dp st (file, value))
              = delete (joinpath dp file) (v_disk st)) as Hd.
    { rewrite verify_step_classify.
      destruct (classify dp (v_disk st) (file, value)); auto. }
    assert (∀ v it, it ∈ m →
              classify dp (v_disk (verify_step dp st (file, value))) it = v
              ↔ classify dp (v_disk st) it = v) as Hsame.
    { intros v [f' v'] Hin. unfold classify. cbn [fst snd].
      destruct Hd as [-> | ->]; [done|].
      rewrite lookup_delete_ne; [done|]. intros Heq. apply Hfresh.
      rewrite Heq. apply list_elem_of_fmap_2.
      by apply (list_elem_of_fmap_2 fst) in Hin. }
    assert (∀ v,
              filter (λ it, classify dp
                        (v_disk (verify_step dp st (file, value))) it = v) m
              = filter (λ it, classify dp (v_disk st) it = v) m) as Hf
      by (intros v; apply filter_ext_elem; intros; by apply Hsame).
    rewrite !Hf. clear Hf Hsame.
    rewrite verify_step_classify.
    destruct (classify dp (v_disk st) (file, value)) eqn:Hcl;
      cbn [pass_files miss_files crash_files v_disk].
    + rewrite filter_cons_True by done.
      rewrite !(filter_cons_False _ (file, value)) by congruence.
      cbn [fmap list_fmap fst]. by rewrite <- app_assoc.
    + rewrite (filter_cons_True (λ it, classify dp (v_disk st) it = Crashed))
        by done.
      rewrite !(filter_cons_False _ (file, value)) by congruence.
      cbn [fmap list_fmap fst foldl]. by rewrite <- app_assoc.
    + rewrite (filter_cons_True (λ it, classify dp (v_disk st) it = Missing))
        by done.
      rewrite !(filter_cons_False _ (file, value)) by congruence.
      cbn [fmap list_fmap fst]. by rewrite <- app_assoc.
Qed.

(** C6. [verify] judges every entry of the manifest by the directory as
    it is when the loop reaches the entry: a file that is there with
    the expected digest is passed, a file that is there with another
    digest is crashed and is removed, a file that is not there is
    missing.  When no earlier entry names the same path, that
    directory is the one [verify] was started on; when all entries name
    distinct paths, the three lists are the entries of each class in
    the starting directory.  Nothing but the crashed files is removed,
    and [verify] returns [True] exactly when no file is missing and no
    file is crashed. *)
Theorem verify_classifies_entries
    (dump_dict : list (string * dump_entry)) (data_path : string)
    (d : gmap string string) :
  let ret := (verify dump_dict data_path d).1 in
  let st := (verify dump_dict data_path d).2 in
  (∀ m1 file value m2,
     dump_dict = m1 ++ (file, value) :: m2 →
     let seen := v_disk (verify_scan m1 data_path d) in
     match classify data_path seen (file, value) with
     | Passed => file ∈ pass_files st
     | Crashed =>
         file ∈ crash_files st ∧ v_disk st !! joinpath data_path file = None
     | Missing => file ∈ miss_files st
     end
     ∧ (joinpath data_path file ∉ joinpath data_path <$> m1.*1 →
        classify data_path seen (file, value)
        = classify data_path d (file, value)))
  ∧ (NoDup (joinpath data_path <$> dump_dict.*1) →
       pass_files st
         = (filter (λ it, classify data_path d it = Passed) dump_dict).*1
       ∧ crash_files st
         = (filter (λ it, classify data_path d it = Crashed) dump_dict).*1
       ∧ miss_files st
         = (filter (λ it, classify data_path d it = Missing) dump_dict).*1)
  ∧ (∀ q, v_disk st !! q =
          if decide (q ∈ joinpath data_path <$> crash_files st)
          then None else d !! q)
  ∧ (ret = true ↔ len (miss_files st) = 0 ∧ len (crash_files st) = 0).
Proof.
  intros ret st. split_and!.
  - intros m1 file value m2 -> seen.
    assert (st = foldl (verify_step data_path)
                   (verify_step data_path (verify_scan m1 data_path d)
                      (file, value)) m2) as Hst.
    { subst st. unfold verify, verify_scan. cbn [snd].
      by rewrite foldl_app. }
    destruct (verify_loop_shape data_path m2
                (verify_step data_path (verify_scan m1 data_path d)
                   (file, value)))
      as (ps & ms & cs & Hp & Hm & Hc & _ & Hnone & _).
    cbn zeta in Hp, Hm, Hc, Hnone. rewrite <- Hst in Hp, Hm, Hc, Hnone.
    rewrite verify_step_classify in Hp, Hm, Hc, Hnone. fold seen in Hp, Hm, Hc, Hnone.
    split.
    + destruct (classify data_path seen (file, value));
        cbn [pass_files miss_files crash_files v_disk] in *.
      * rewrite Hp, !elem_of_app. left; right. left.
      * split; [rewrite Hc, !elem_of_app; left; right; left|].
        apply Hnone, lookup_delete_eq.
      * rewrite Hm, !elem_of_app. left; right. left.
    + intros Hfresh. unfold classify. cbn [fst snd]. subst seen.
      destruct (verify_loop_shape data_path m1
                  {| pass_files := []; miss_files := []; crash_files := [];
                     v_disk := d |})
        as (_ & _ & _ & _ & _ & _ & _ & _ & Hframe & _).
      unfold verify_scan. cbn zeta in Hframe. by rewrite Hframe.
  - intros Hnd. subst st. unfold verify, verify_scan. cbn [snd].
    by rewrite verify_loop_classify.
  - intros q. subst st. unfold verify, verify_scan. cbn [snd].
    destruct (verify_loop_shape data_path dump_dict
                {| pass_files := []; miss_files := []; crash_files := [];
                   v_disk := d |})
      as (ps & ms & cs & _ & _ & Hc & _ & _ & _ & Hdel).
    cbn zeta in Hc, Hdel. rewrite Hc, Hdel. cbn [crash_files v_disk app].
    apply lookup_foldl_delete.
  - subst ret st. unfold verify. cbn [fst snd]. apply bool_decide_eq_true.
Qed.

(** C10. Every entry of the manifest adds its name to exactly one of
    the three lists: together the lists are a rearrangement of the
    names of the manifest, the three counts add up to the number of
    entries, and, the names of a dict being distinct, no name is in
    two lists or twice in one. *)
Theorem verify_partitions_entries
    (dump_dict : list (string * dump_entry)) (data_path : string)
    (d : gmap string string) :
  let st := (verify dump_dict data_path d).2 in
  pass_files st ++ miss_files st ++ crash_files st ≡ₚ dump_dict.*1
  ∧ len (pass_files st) + len (miss_files st) + len (crash_files st)
    = len dump_dict
  ∧ verify_counts st
    = (len (pass_files st), len (miss_files st), len (crash_files st))
  ∧ (NoDup dump_dict.*1 →
     NoDup (pass_files st ++ miss_files st ++ crash_files st)
     ∧ ∀ file, file ∈ dump_dict.*1 →
         ((file ∈ pass_files st) ∧ (file ∉ miss_files st)
          ∧ (file ∉ crash_files st))
         ∨ ((file ∉ pass_files st) ∧ (file ∈ miss_files st)
            ∧ (file ∉ crash_files st))
         ∨ ((file ∉ pass_files st) ∧ (file ∉ miss_files st)
            ∧ (file ∈ crash_files st))).
Proof.
  intros st.
  assert (pass_files st ++ miss_files st ++ crash_files st ≡ₚ dump_dict.*1)
    as Hperm.
  { subst st. unfold verify, verify_scan. cbn [snd].
    destruct (verify_loop_shape data_path dump_dict
                {| pass_files := []; miss_files := []; crash_files := [];
                   v_disk := d |})
      as (ps & ms & cs & Hp & Hm & Hc & Hperm & _).
    cbn zeta in Hp, Hm, Hc. by rewrite Hp, Hm, Hc. }
  split_and!; [done | | done |].
  - apply Permutation_length in Hperm.
    rewrite !length_app, length_fmap in Hperm. unfold len. lia.
  - intros Hnd. rewrite <- Hperm in Hnd. split; [done|].
    intros file Hin. rewrite <- Hperm in Hin.
    apply NoDup_app in Hnd as (_ & H1 & Hnd).
    apply NoDup_app in Hnd as (_ & H2 & _).
    destruct (decide (file ∈ pass_files st)) as [Hp|Hp].
    { left. specialize (H1 _ Hp). rewrite not_elem_of_app in H1. tauto. }
    destruct (decide (file ∈ miss_files st)) as [Hm|Hm].
    { right; left. specialize (H2 _ Hm). tauto. }
    right; right. rewrite !elem_of_app in Hin. tauto.
Qed.
End verify_props.

(** The end-to-end scenario of the specification: of three files the
    first and the third are there and correct, the second is absent. *)
Example verify_example_manifest :
  let r := verify (H := example_platform offline) example_manifest "data"
             example_disk in
  r.1 = false
  ∧ verify_counts r.2 = (2, 1, 0)
  ∧ miss_files r.2 = ["B.7z"]
  ∧ v_disk r.2 = example_disk.
Proof. vm_compute. done. Qed.

(** With a damaged second file: it is crashed and removed. *)
Example verify_damaged_disk :
  let r := verify (H := example_platform offline) example_manifest "data"
             damaged_disk in
  r.1 = false
  ∧ verify_counts r.2 = (2, 0, 1)
  ∧ crash_files r.2 = ["B.7z"]
  ∧ v_disk r.2 !! "data/B.7z" = None.
Proof. vm_compute. done. Qed.

Lemma verify_classifies_entries_witness :
  example_manifest =
    [("A.7z", {| entry_url := "/enwiki/A.7z"; entry_md5 := "aaa" |})]
    ++ ("B.7z", {| entry_url := "/enwiki/B.7z"; entry_md5 := "bbb" |})
    :: [("C.7z", {| entry_url := "/enwiki/C.7z"; entry_md5 := "ccc" |})]
  ∧ "B.7z" ∈ crash_files
       (verify (H := example_platform offline) example_manifest "data"
          damaged_disk).2
  ∧ v_disk (verify (H := example_platform offline) example_manifest "data"
              damaged_disk).2 !! "data/B.7z" = None.
Proof.
  split; [reflexivity|].
  exact (proj1 (proj1 (verify_classifies_entries
                         (H := example_platform offline)
                         example_manifest "data" damaged_disk)
                  [("A.7z", {| entry_url := "/enwiki/A.7z"; entry_md5 := "aaa" |})]
                  "B.7z" {| entry_url := "/enwiki/B.7z"; entry_md5 := "bbb" |}
                  [("C.7z", {| entry_url := "/enwiki/C.7z"; entry_md5 := "ccc" |})]
                  eq_refl)).
Defined.

Lemma verify_partitions_entries_witness :
  NoDup example_manifest.*1
  ∧ NoDup (pass_files (verify (H := example_platform offline)
                         example_manifest "data" damaged_disk).2
           ++ miss_files (verify (H := example_platform offline)
                            example_manifest "data" damaged_disk).2
           ++ crash_files (verify (H := example_platform offline)
                             example_manifest "data" damaged_disk).2).
Proof.
  assert (NoDup example_manifest.*1) as Hnd
    by (apply (bool_decide_unpack _); vm_compute; exact I).
  split; [exact Hnd|].
  exact (proj1 (proj2 (proj2 (proj2 (verify_partitions_entries
                  (H := example_platform offline)
                  example_manifest "data" damaged_disk))) Hnd)).
Defined.

(** ** Coordinator *)

(** A slice with a non-negative start and, if there is one, an end within
    the list: element [i] of the slice is element [lo + i] of the list, as
    long as that is before the end. *)
Lemma py_slice_lookup {A} (l : list A) (lo : Z) (hi : option Z) (i : nat) :
  0 <= lo →
  (∀ h, hi = Some h → 0 <= h <= len l) →
  py_slice l lo hi !! i =
  if decide (lo + Z.of_nat i < from_option id (len l) hi)
  then l !! Z.to_nat (lo + Z.of_nat i) else None.
Proof.
  intros Hlo Hhi. unfold py_slice.
  pose proof (len_nonneg l) as Hn.
  assert (slice_bound (len l) lo = Z.min lo (len l)) as ->.
  { unfold slice_bound. destruct (Z.ltb_spec lo 0); [lia | done]. }
  assert (from_option (slice_bound (len l)) (len l) hi
          = from_option id (len l) hi) as ->.
  { destruct hi as [h|]; [|done]. cbn. specialize (Hhi h eq_refl).
    unfold slice_bound. destruct (Z.ltb_spec h 0); lia. }
  set (b := from_option id (len l) hi).
  assert (0 <= b <= len l) as Hb.
  { subst b. destruct hi as [h|]; cbn; [by apply Hhi | lia]. }
  case_decide as Hi.
  - rewrite lookup_take_lt by lia. rewrite lookup_drop. f_equal. lia.
  - destruct (decide (lo <= len l)).
    + rewrite lookup_take_ge; [done | lia].
    + apply lookup_ge_None_2. rewrite length_take, length_drop.
      unfold len in *. lia.
Qed.

Lemma dict_get_is_Some (d : list (string * dump_entry)) (k : string) :
  k ∈ d.*1 → is_Some (dict_get d k).
Proof.
  induction d as [|[k' v] d IH]; cbn [fmap list_fmap fst dict_get].
  - by intros ?%elem_of_nil.
  - intros [->|Hin]%elem_of_cons; case_decide; eauto; done.
Qed.

Lemma sorted_spec (l : list string) :
  Sorted String.le (sorted l) ∧ sorted l ≡ₚ l.
Proof.
  split; [apply Sorted_merge_sort, _ | apply merge_sort_Permutation].
Qed.

Section coordinator_props.
Context `{!Platform}.

Lemma download_files_names (args : Args) (dump_dict : list (string * dump_entry))
    (start end_ : Z) (f : string) :
  f ∈ download_files args dump_dict start end_ → f ∈ dump_dict.*1.
Proof.
  intros Hin. rewrite <- (proj2 (sorted_spec dump_dict.*1)).
  unfold download_files, py_slice in Hin.
  case_bool_decide; by apply subseteq_take, subseteq_drop in Hin.
Qed.

(** The second loop of [download] never meets a [KeyError]. *)
Lemma download_lists_Some (dump_dict : list (string * dump_entry))
    (data_path : string) (files : list string) :
  (∀ f, f ∈ files → f ∈ dump_dict.*1) →
  ∃ urls,
    download_lists dump_dict data_path files
      = Some (joinpath data_path <$> files, urls)
    ∧ Forall2 (λ f u, entry_url <$> dict_get dump_dict f = Some u) files urls.
Proof.
  intros Hin.
  destruct (mapM_is_Some_2
              (λ dump_file, entry_url <$> dict_get dump_dict dump_file) files)
    as [urls Hurls].
  { apply Forall_forall. intros f Hf. unfold compose.
    destruct (dict_get_is_Some dump_dict f (Hin f Hf)) as [v ->]. by eexists. }
  exists urls. split; [|by apply mapM_Some_1].
  unfold download_lists. by rewrite Hurls.
Qed.

(** C7. Called with [args.start] and [args.end], as [main] calls it,
    and with a start of at least 1, [download] sorts the file names of
    the manifest and keeps those at the positions [start .. end],
    counted from 1 and both included; when [end] is not positive or
    exceeds the number of files, it keeps the positions from [start] to
    the last.  The queue is built from these names in this order, each
    with its path under the data directory and its URL.  With five
    names, [start = 2] and [end = 4] the names at positions 2, 3 and 4
    are kept, in this order. *)
Theorem download_enqueues_sorted_slice
    (args : Args) (dump_dict : list (string * dump_entry))
    (data_path : string) :
  1 <= args_start args →
  let names := sorted dump_dict.*1 in
  let last :=
    if bool_decide (0 < args_end args <= len dump_dict)
    then args_end args else len dump_dict in
  let files :=
    download_files args dump_dict (args_start args) (args_end args) in
  Sorted String.le names
  ∧ names ≡ₚ dump_dict.*1
  ∧ (∀ i : nat,
       files !! i =
       if decide (args_start args + Z.of_nat i <= last)
       then names !! Z.to_nat (args_start args - 1 + Z.of_nat i) else None)
  ∧ (∃ urls,
       Forall2 (λ f u, entry_url <$> dict_get dump_dict f = Some u) files urls
       ∧ download_queue args dump_dict data_path (args_start args) (args_end args)
         = Some (WikiDumpTask_init (joinpath data_path <$> files) urls)
       ∧ ∀ thread_num wm d,
           download args dump_dict data_path (args_start args) (args_end args)
             thread_num wm d
           = Some (replicate (Z.to_nat thread_num) Starting,
                   {| tasks := WikiDumpTask_init (joinpath data_path <$> files) urls;
                      WM := wm; disk := d; requests := [];
                      installed_opener := None |}))
  ∧ (∀ a b c d e : string,
       names = [a; b; c; d; e] → args_start args = 2 → args_end args = 4 →
       files = [b; c; d]).
Proof.
  intros Hstart names last files.
  destruct (sorted_spec dump_dict.*1) as [Hsorted Hperm].
  assert (len names = len dump_dict) as Hlen.
  { unfold len. subst names. by rewrite Hperm, length_fmap. }
  split_and!; [done | done | | |].
  - intros i. subst files. unfold download_files. fold names.
    rewrite Hlen. subst last.
    case_bool_decide as Hend.
    + rewrite bool_decide_true by lia.
      rewrite py_slice_lookup by (try intros h [= <-]; lia). cbn [from_option id].
      repeat case_decide; try lia; f_equal; lia.
    + rewrite bool_decide_false by lia.
      rewrite py_slice_lookup by (try intros h [=]; lia). cbn [from_option].
      rewrite Hlen. repeat case_decide; try lia; f_equal; lia.
  - destruct (download_lists_Some dump_dict data_path files)
      as (urls & Hl & Hf).
    { intros f. apply download_files_names. }
    assert (download_queue args dump_dict data_path (args_start args)
              (args_end args)
            = Some (WikiDumpTask_init (joinpath data_path <$> files) urls)) as Hq
      by (unfold download_queue; fold files; by rewrite Hl).
    exists urls. split_and!; [done | done |].
    intros thread_num wm d. unfold download. by rewrite Hq.
  - intros a b c d e Hn Hs He. subst files. unfold download_files.
    fold names. rewrite Hn, Hs, He. reflexivity.
Qed.
End coordinator_props.

Lemma download_enqueues_sorted_slice_witness :
  1 <= args_start example_args
  ∧ download_files example_args five_manifest 2 4 !! 0%nat = Some "p2.7z".
Proof.
  assert (1 <= args_start example_args) as Hs by (vm_compute; discriminate).
  split; [exact Hs|].
  exact (proj1 (proj2 (proj2 (download_enqueues_sorted_slice
           (H := example_platform offline)
           example_args five_manifest "data" Hs))) 0%nat).
Defined.

(** The end-to-end scenario of the specification: five tasks, start 2,
    end 4. *)
Example download_five_manifest :
  download_queue (H := example_platform offline)
    example_args five_manifest "data" 2 4
  = Some {| lock := false;
            url_list := ["/enwiki/p2.7z"; "/enwiki/p3.7z"; "/enwiki/p4.7z"];
            file_list := ["data/p2.7z"; "data/p3.7z"; "data/p4.7z"];
            total_num := 3 |}.
Proof. reflexivity. Qed.

(** ** Worker *)

(** [assign_task] hands out a file name of [file_list] and leaves a part
    of [file_list]. *)
Lemma assign_task_files (P : string → Prop) (q : WikiDumpTask) :
  Forall P (file_list q) →
  Forall P (file_list (assign_task q).2)
  ∧ ∀ u f a b, (assign_task q).1 = Returned (u, PPath f, a, b) → P f.
Proof.
  intros HP. unfold assign_task. destruct (lock q); [done|].
  case_bool_decide; [|done].
  destruct (url_list q) as [|u us]; [done|].
  destruct (file_list q) as [|f fs] eqn:Hf; cbn [fst snd file_list].
  - split; [constructor | done].
  - apply Forall_cons in HP as [Hf0 Hfs]. split; [done|].
    by intros ???? [= _ <- _ _].
Qed.

Section worker_props.
Context `{!Platform}.

(** An invariant of the pool holds in every state a run reaches. *)
Lemma pool_invariant (args : Args) (I : list pc * world → Prop)
    (s0 s : list pc * world) :
  I s0 →
  (∀ (i : nat) p p' ts w w',
     I (ts, w) → ts !! i = Some p → running p = true →
     worker_step args p w = (p', w') → I (<[i := p']> ts, w')) →
  rtc (pool_step args) s0 s → I s.
Proof.
  intros H0 Hstep. revert s. apply rtc_ind_r; [done|].
  intros s s' _ Hs HI. destruct Hs as [i p p' ts w w' Hi Hrun Hw]. eauto.
Qed.

Lemma worker_step_Starting_no_proxy (args : Args) (w : world) :
  args_proxies args = "" →
  worker_step args Starting w = (Died UnboundLocalError, w).
Proof. intros Hp. cbn [worker_step]. by rewrite Hp. Qed.

(** C2. When [--proxies] is the empty string, a worker raises
    [UnboundLocalError], which is a [NameError], where it reads the
    local variable [opener] for [install_opener]: the variable is bound
    only in the branch taken for a non-empty proxy.  Nothing catches
    it, the worker is dead after its first step whatever it is given to
    run, and in every state a pool of such workers reaches the queue
    and everything else the workers share is as the coordinator left
    it and every worker is either still to start or dead of this
    error: no task is ever claimed. *)
Theorem worker_without_proxy_raises_NameError (args : Args) :
  args_proxies args = "" →
  issubclass UnboundLocalError NameError = true
  ∧ (∀ w, worker_step args Starting w = (Died UnboundLocalError, w))
  ∧ (∀ fuel w, worker (S fuel) args Starting w = (Died UnboundLocalError, w))
  ∧ (∀ (n : nat) w0 ts w,
       rtc (pool_step args) (replicate n Starting, w0) (ts, w) →
       w = w0
       ∧ Forall (λ p, p = Starting ∨ p = Died UnboundLocalError) ts).
Proof.
  intros Hp. split_and!.
  - reflexivity.
  - intros w. by apply worker_step_Starting_no_proxy.
  - intros fuel w. cbn [worker running].
    rewrite worker_step_Starting_no_proxy by done. by destruct fuel.
  - intros n w0 ts w Hr.
    apply (pool_invariant args
             (λ s, s.2 = w0
                   ∧ Forall (λ p, p = Starting ∨ p = Died UnboundLocalError) s.1)
             _ _) in Hr; [done | |].
    + split; [done|]. apply Forall_replicate. by left.
    + intros i p p' ts' w1 w1' [Hw Hts] Hi Hrun Hstep. cbn [fst snd] in *.
      destruct (Forall_lookup_1 _ _ _ _ Hts Hi) as [-> | ->]; [|done].
      rewrite worker_step_Starting_no_proxy in Hstep by done.
      injection Hstep as <- <-. split; [done|].
      apply Forall_insert; [done | by right].
Qed.

(** A worker that finds the path it checks goes back to claim the next
    task and leaves everything as it is. *)
Lemma worker_step_Checking_exists (args : Args) (u f : string) (w : world) :
  exists_ (disk w) f = true →
  worker_step args (Checking u f) w = (Claiming, w).
Proof. intros He. cbn [worker_step]. by rewrite He. Qed.

(** While every path still in the queue exists and every worker is
    outside its retry loop, a step keeps it so and touches neither the
    directory nor the record of transfers. *)
Lemma skipping_step (args : Args) (d : gmap string string) (p p' : pc)
    (w w' : world) :
  disk w = d →
  Forall (λ f, exists_ d f = true) (file_list (tasks w)) →
  skipping d p →
  worker_step args p w = (p', w') →
  disk w' = d ∧ requests w' = requests w
  ∧ Forall (λ f, exists_ d f = true) (file_list (tasks w'))
  ∧ skipping d p'.
Proof.
  intros Hd Hq Hp Hstep. destruct p; cbn [worker_step skipping] in *.
  - destruct (truthy (PStr (args_proxies args)));
      injection Hstep as <- <-; done.
  - destruct (assign_task_files _ (tasks w) Hq) as [Hq' Hf].
    destruct (assign_task (tasks w)) as [[[[[url fn] cur] tot]|e|] q];
      cbn [fst snd] in *.
    + destruct (truthy url); cbn [negb] in Hstep.
      * destruct url, fn; injection Hstep as <- <-; cbn; try done.
        split_and!; try done. by eapply Hf.
      * injection Hstep as <- <-. done.
    + injection Hstep as <- <-. done.
    + injection Hstep as <- <-. done.
  - rewrite Hd, Hp in Hstep. injection Hstep as <- <-. done.
  - done.
  - done.
  - injection Hstep as <- <-. done.
  - injection Hstep as <- <-. done.
Qed.

(** C8. A worker whose claimed task has a destination path that exists
    when it checks makes no transfer for it and goes on to claim the
    next task.  Hence, when every path in the queue exists at the
    start, no state that a pool of any size reaches has a transfer on
    record or a changed directory; and a worker that gets past its
    prologue, run alone on such a queue of [N] tasks with usable URLs,
    claims and skips them all and exits within [2 N + 2] steps. *)
Theorem existing_files_are_skipped (args : Args) :
  (∀ u f w,
     exists_ (disk w) f = true →
     worker_step args (Checking u f) w = (Claiming, w))
  ∧ (∀ (n : nat) w0 ts w,
       Forall (λ f, exists_ (disk w0) f = true) (file_list (tasks w0)) →
       rtc (pool_step args) (replicate n Starting, w0) (ts, w) →
       requests w = requests w0 ∧ disk w = disk w0
       ∧ Forall (skipping (disk w0)) ts)
  ∧ (∀ (l : list (string * string)) w0,
       args_proxies args ≠ "" →
       tasks w0 = WikiDumpTask_of l →
       Forall (λ t, t.1 ≠ "" ∧ exists_ (disk w0) t.2 = true) l →
       worker (2 * length l + 2) args Starting w0 =
       (Exited,
        {| tasks := {| lock := false; url_list := []; file_list := [];
                       total_num := len l |};
           WM := WM w0; disk := disk w0; requests := requests w0;
           installed_opener := Some (args_proxies args) |})).
Proof.
  split_and!.
  - intros u f w. apply worker_step_Checking_exists.
  - intros n w0 ts w Hq Hr.
    apply (pool_invariant args
             (λ s, disk s.2 = disk w0 ∧ requests s.2 = requests w0
                   ∧ Forall (λ f, exists_ (disk w0) f = true)
                       (file_list (tasks s.2))
                   ∧ Forall (skipping (disk w0)) s.1) _ _) in Hr.
    + cbn [fst snd] in Hr. tauto.
    + cbn [fst snd]. split_and!; [done.. |]. by apply Forall_replicate.
    + intros i p p' ts' w1 w1' (Hd & Hreq & Hfl & Hts) Hi Hrun Hstep.
      cbn [fst snd] in *.
      destruct (skipping_step args (disk w0) p p' w1 w1' Hd Hfl
                  (Forall_lookup_1 _ _ _ _ Hts Hi) Hstep)
        as (Hd' & Hreq' & Hfl' & Hp').
      split_and!; [done | congruence | done |]. by apply Forall_insert.
  - intros l w0 Hproxy Htasks Hl.
    assert (∀ (l : list (string * string)) t wm d rq op,
              Forall (λ t, t.1 ≠ "" ∧ exists_ d t.2 = true) l →
              worker (2 * length l + 1) args Claiming
                {| tasks := {| lock := false; url_list := l.*1;
                               file_list := l.*2; total_num := t |};
                   WM := wm; disk := d; requests := rq;
                   installed_opener := op |}
              = (Exited,
                 {| tasks := {| lock := false; url_list := [];
                                file_list := []; total_num := t |};
                    WM := wm; disk := d; requests := rq;
                    installed_opener := op |})) as Hloop.
    { clear. induction l as [|[u f] l IH]; intros t wm d rq op Hl.
      - reflexivity.
      - apply Forall_cons in Hl as [[Hu Hf] Hl]. cbn [fst snd] in Hu, Hf.
        replace (2 * length ((u, f) :: l) + 1)%nat
          with (S (S (2 * length l + 1))) by (cbn [length]; lia).
        cbn [worker running worker_step tasks fmap list_fmap fst snd].
        rewrite assign_task_cons.
        assert (truthy (PStr u) = true) as ->.
        { cbn. by apply negb_true_iff, String.eqb_neq. }
        cbn [negb running]. rewrite worker_step_Checking_exists by done.
        by apply IH. }
    replace (2 * length l + 2)%nat with (S (2 * length l + 1)) by lia.
    cbn [worker running worker_step].
    assert (truthy (PStr (args_proxies args)) = true) as ->.
    { cbn. by apply negb_true_iff, String.eqb_neq. }
    rewrite Htasks. unfold WikiDumpTask_of, WikiDumpTask_init.
    rewrite Hloop by done. unfold len. by rewrite length_fmap.
Qed.

(** C4, amended. A failed transfer leaves the directory as
    [urlretrieve] left it: the handler of the worker only logs and
    retries.  With the [urlretrieve] of the standard library the
    destination path is absent after a failed transfer exactly when
    the transfer failed before a response was there and the path was
    absent before; a transfer that fails after the response has begun
    leaves the part it received at the destination path, where it
    passes the existence check. *)
Theorem failed_transfer_keeps_what_urlretrieve_wrote
    (server : nat → string → response) (args : Args)
    (dump_url url file_name : string) (w : world) :
  urlretrieve = std_urlretrieve server →
  let r := worker_step args (Fetching dump_url url file_name) w in
  let answer := server (length (requests w)) dump_url in
  r.1 = Retrying url file_name →
  disk r.2
    = (urlretrieve (length (requests w)) dump_url file_name (disk w)).2
  ∧ requests r.2 = (dump_url, file_name) :: requests w
  ∧ match answer with
    | Unreachable => disk r.2 = disk w
    | Complete _ => False
    | Truncated _ body | Interrupted body =>
        disk r.2 = <[file_name := body]> (disk w)
        ∧ exists_ (disk r.2) file_name = true
    end
  ∧ (exists_ (disk r.2) file_name = false
     ↔ answer = Unreachable ∧ exists_ (disk w) file_name = false).
Proof.
  intros Hlib r answer Hfail. subst r. cbn [worker_step] in *.
  rewrite Hlib in Hfail |- *. unfold std_urlretrieve in Hfail |- *.
  fold answer in Hfail |- *.
  assert (issubclass URLError Exception = true) as E1 by reflexivity.
  assert (issubclass ContentTooShortError Exception = true) as E2
    by reflexivity.
  assert (issubclass OSError Exception = true) as E3 by reflexivity.
  assert (∀ (b : string) (d : gmap string string),
            exists_ (<[file_name := b]> d) file_name = true) as Hex.
  { intros b d. unfold exists_. apply bool_decide_eq_true.
    rewrite lookup_insert_eq. by eexists. }
  destruct answer as [|body|declared body|body].
  - rewrite E1. cbn [fst snd disk requests].
    split_and!; [done.. |]. split; [done | by intros [_ ?]].
  - done.
  - case_bool_decide; [|done]. rewrite E2. cbn [fst snd disk requests].
    split_and!; [done.. | apply Hex |]. rewrite Hex.
    split; [done | by intros [? _]].
  - rewrite E3. cbn [fst snd disk requests].
    split_and!; [done.. | apply Hex |]. rewrite Hex.
    split; [done | by intros [? _]].
Qed.
End worker_props.

Lemma worker_without_proxy_raises_NameError_witness :
  args_proxies default_args = ""
  ∧ worker (H := example_platform offline) 10 default_args Starting one_task_world
    = (Died UnboundLocalError, one_task_world).
Proof.
  split; [reflexivity|].
  exact (proj1 (proj2 (proj2 (worker_without_proxy_raises_NameError
           (H := example_platform offline) default_args eq_refl)))
           9%nat one_task_world).
Defined.

Lemma existing_files_are_skipped_witness :
  args_proxies example_args ≠ ""
  ∧ Forall (λ t : string * string,
              t.1 ≠ "" ∧ exists_ (disk downloaded_world) t.2 = true)
      [("/enwiki/A.7z", "data/A.7z")]
  ∧ (worker (H := example_platform offline) 4 example_args Starting
       downloaded_world).1 = Exited
  ∧ requests (worker (H := example_platform offline) 4 example_args Starting
                downloaded_world).2 = [].
Proof.
  assert (args_proxies example_args ≠ "") as Hp by discriminate.
  assert (Forall (λ t : string * string,
                    t.1 ≠ "" ∧ exists_ (disk downloaded_world) t.2 = true)
            [("/enwiki/A.7z", "data/A.7z")]) as Hl.
  { constructor; [|constructor]. split; [discriminate | reflexivity]. }
  split; [exact Hp|]. split; [exact Hl|].
  pose proof (proj2 (proj2 (existing_files_are_skipped
                (H := example_platform offline) example_args))
                [("/enwiki/A.7z", "data/A.7z")] downloaded_world Hp eq_refl Hl)
    as Hrun.
  split; [exact (f_equal fst Hrun) | exact (f_equal (λ r, requests r.2) Hrun)].
Defined.

(** C4 as stated fails: the server announces ten bytes and closes after
    four; the transfer fails, the worker goes back to retry, and the four
    bytes are at the destination path, which now passes the existence
    check. *)
Lemma truncated_transfer_leaves_partial_file :
  let w :=
    {| tasks := WikiDumpTask_init [] []; WM := wikipediaMirror_init;
       disk := ∅; requests := [];
       installed_opener := Some "http://proxy:3128" |} in
  let r :=
    worker_step (H := example_platform truncating) example_args
      (Fetching "https://wikimedia.bringyour.com/enwiki/A.7z"
                "/enwiki/A.7z" "data/A.7z") w in
  exists_ (disk w) "data/A.7z" = false
  ∧ r.1 = Retrying "/enwiki/A.7z" "data/A.7z"
  ∧ disk r.2 !! "data/A.7z" = Some "part"
  ∧ exists_ (disk r.2) "data/A.7z" = true
  ∧ ¬ (∀ server args dump_url url file_name w,
         (worker_step (H := example_platform server) args
            (Fetching dump_url url file_name) w).1 = Retrying url file_name →
         exists_ (disk (worker_step (H := example_platform server) args
                          (Fetching dump_url url file_name) w).2) file_name
         = false).
Proof.
  split_and!; [reflexivity..|].
  intros H.
  specialize (H truncating example_args
                "https://wikimedia.bringyour.com/enwiki/A.7z"
                "/enwiki/A.7z" "data/A.7z"
                {| tasks := WikiDumpTask_init [] []; WM := wikipediaMirror_init;
                   disk := ∅; requests := [];
                   installed_opener := Some "http://proxy:3128" |} eq_refl).
  vm_compute in H. discriminate H.
Qed.

Lemma failed_transfer_keeps_what_urlretrieve_wrote_witness :
  let w :=
    {| tasks := WikiDumpTask_init [] []; WM := wikipediaMirror_init;
       disk := ∅; requests := [];
       installed_opener := Some "http://proxy:3128" |} in
  let r :=
    worker_step (H := example_platform offline) example_args
      (Fetching "https://wikimedia.bringyour.com/enwiki/A.7z"
                "/enwiki/A.7z" "data/A.7z") w in
  r.1 = Retrying "/enwiki/A.7z" "data/A.7z"
  ∧ disk r.2 = disk w.
Proof.
  split; [reflexivity|].
  exact (proj1 (proj2 (proj2 (failed_transfer_keeps_what_urlretrieve_wrote
           (H := example_platform offline) offline example_args
           "https://wikimedia.bringyour.com/enwiki/A.7z"
           "/enwiki/A.7z" "data/A.7z"
           {| tasks := WikiDumpTask_init [] []; WM := wikipediaMirror_init;
              disk := ∅; requests := [];
              installed_opener := Some "http://proxy:3128" |}
           eq_refl eq_refl)))).
Defined.

(** A worker whose first two transfers fail and whose third succeeds: it
    asks three mirrors in turn and ends with the whole file in place. *)
Example worker_retries_until_success :
  worker (H := example_platform flaky) 20
    example_args Starting one_task_world
  = (Exited,
     {| tasks := {| lock := false; url_list := []; file_list := [];
                    total_num := 1 |};
        WM := {| index := 3 |};
        disk := <["data/A.7z" := "whole"]> ∅;
        requests :=
          [ ("https://mirror.clarkson.edu/enwiki/A.7z", "data/A.7z");
            ("https://wikipedia.c3sl.ufpr.br/enwiki/A.7z", "data/A.7z");
            ("https://wikimedia.bringyour.com/enwiki/A.7z", "data/A.7z") ];
        installed_opener := Some "http://proxy:3128" |}).
Proof. vm_compute. reflexivity. Qed.

(** A run that is stopped after a failed transfer leaves the part on
    disk; the next run takes the path for a finished download and makes
    no transfer. *)
Example partial_file_is_skipped_by_next_run :
  let stopped :=
    (worker (H := example_platform truncating) 5
       example_args Starting one_task_world).2 in
  let next :=
    worker (H := example_platform truncating) 20 example_args Starting
      {| tasks := WikiDumpTask_of [("/enwiki/A.7z", "data/A.7z")];
         WM := wikipediaMirror_init; disk := disk stopped; requests := [];
         installed_opener := None |} in
  disk stopped !! "data/A.7z" = Some "part"
  ∧ next.1 = Exited
  ∧ requests next.2 = []
  ∧ disk next.2 !! "data/A.7z" = Some "part".
Proof. vm_compute. done. Qed.

(** ** More on the verification pass *)

Section verify_more.
Context `{!Platform}.
Implicit Types (m : list (string * dump_entry)) (st : verify_state).

(** Entries that are all as expected leave the directory alone and go to
    [pass_files]. *)
Lemma verify_loop_all_passed (dp : string) m st :
  Forall (λ it, classify dp (v_disk st) it = Passed) m →
  foldl (verify_step dp) st m =
  {| pass_files := pass_files st ++ m.*1; miss_files := miss_files st;
     crash_files := crash_files st; v_disk := v_disk st |}.
Proof.
  revert st. induction m as [|[file value] m IH]; intros st Hall.
  - cbn. rewrite app_nil_r. by destruct st.
  - apply Forall_cons in Hall as [Hhd Htl]. cbn [foldl].
    rewrite verify_step_classify, Hhd, IH by done.
    cbn [pass_files miss_files crash_files v_disk fmap list_fmap fst].
    by rewrite <- app_assoc.
Qed.

(** A loop that adds nothing to [miss_files] and [crash_files] has met
    only entries that are as expected. *)
Lemma verify_loop_clean_inv (dp : string) m st :
  miss_files (foldl (verify_step dp) st m) = miss_files st →
  crash_files (foldl (verify_step dp) st m) = crash_files st →
  Forall (λ it, classify dp (v_disk st) it = Passed) m.
Proof.
  revert st. induction m as [|[file value] m IH]; intros st Hm Hc;
    [constructor|].
  cbn [foldl] in Hm, Hc.
  destruct (verify_loop_shape dp m (verify_step dp st (file, value)))
    as (ps & ms & cs & _ & Hm' & Hc' & _).
  cbn zeta in Hm', Hc'. rewrite Hm' in Hm. rewrite Hc' in Hc.
  pose proof (IH (verify_step dp st (file, value))) as IH'.
  rewrite Hm', Hc' in IH'. clear Hm' Hc' IH.
  rewrite verify_step_classify in Hm, Hc, IH'.
  destruct (classify dp (v_disk st) (file, value)) eqn:Hcl;
    cbn [pass_files miss_files crash_files v_disk] in *.
  - constructor; [done|]. apply IH'; done.
  - apply (f_equal length) in Hc. rewrite !length_app in Hc. cbn in Hc. lia.
  - apply (f_equal length) in Hm. rewrite !length_app in Hm. cbn in Hm. lia.
Qed.

Lemma verify_ret_iff (dp : string) m (d : gmap string string) :
  (verify m dp d).1 = true ↔ Forall (λ it, classify dp d it = Passed) m.
Proof.
  unfold verify, verify_scan. cbn [fst]. rewrite bool_decide_eq_true. split.
  - intros [Hm Hc]. apply len_nil_inv in Hm, Hc.
    by apply (verify_loop_clean_inv dp m
                {| pass_files := []; miss_files := []; crash_files := [];
                   v_disk := d |}).
  - intros Hall. by rewrite verify_loop_all_passed.
Qed.

(** The directory after the loop against the directory before it. *)
Lemma verify_loop_lookup (dp : string) m st (q : string) :
  v_disk (foldl (verify_step dp) st m) !! q = None
  ∨ v_disk (foldl (verify_step dp) st m) !! q = v_disk st !! q.
Proof.
  destruct (verify_loop_shape dp m st) as (_ & _ & cs & _ & _ & _ & _ & _ & _ & Hdel).
  cbn zeta in Hdel. rewrite Hdel, lookup_foldl_delete. case_decide; auto.
Qed.

(** No entry of the manifest is crashed in the directory the loop leaves. *)
Lemma verify_loop_leaves_no_crashed (dp : string) m st :
  ∀ it, it ∈ m → classify dp (v_disk (foldl (verify_step dp) st m)) it ≠ Crashed.
Proof.
  revert st. induction m as [|[file value] m IH]; intros st it Hin.
  - by apply elem_of_nil in Hin.
  - cbn [foldl]. apply elem_of_cons in Hin as [->|Hin]; [|by apply IH].
    set (st1 := verify_step dp st (file, value)).
    destruct (verify_loop_lookup dp m st1 (joinpath dp file)) as [Hq|Hq].
    { unfold classify. cbn [fst snd]. by rewrite Hq. }
    unfold classify. cbn [fst snd]. rewrite Hq. subst st1.
    rewrite verify_step_classify. unfold classify. cbn [fst snd].
    destruct (v_disk st !! joinpath dp file) as [c|] eqn:Hc.
    + case_decide; cbn [v_disk].
      * rewrite Hc. by rewrite decide_True.
      * by rewrite lookup_delete_eq.
    + cbn [v_disk]. by rewrite Hc.
Qed.

(** Without a crashed entry the loop deletes nothing. *)
Lemma verify_loop_no_crash (dp : string) m st :
  (∀ it, it ∈ m → classify dp (v_disk st) it ≠ Crashed) →
  v_disk (foldl (verify_step dp) st m) = v_disk st
  ∧ crash_files (foldl (verify_step dp) st m) = crash_files st.
Proof.
  revert st. induction m as [|[file value] m IH]; intros st Hno; [done|].
  cbn [foldl].
  assert (v_disk (verify_step dp st (file, value)) = v_disk st
          ∧ crash_files (verify_step dp st (file, value)) = crash_files st)
    as [Hd Hc].
  { rewrite verify_step_classify.
    destruct (classify dp (v_disk st) (file, value)) eqn:Hcl; [done | | done].
    by destruct (Hno (file, value)); [left|]. }
  destruct (IH (verify_step dp st (file, value))) as [-> ->]; [|done].
  intros it Hin. rewrite Hd. apply Hno. by right.
Qed.

(** X1. [verify] returns [True] exactly when every file of the manifest
    is in the directory with the digest the manifest gives; it then
    leaves the directory as it found it and has every name, in the order
    of the manifest, among the passed files. *)
Theorem verify_succeeds_iff_all_passed
    (dump_dict : list (string * dump_entry)) (data_path : string)
    (d : gmap string string) :
  ((verify dump_dict data_path d).1 = true
   ↔ Forall (λ it, classify data_path d it = Passed) dump_dict)
  ∧ ((verify dump_dict data_path d).1 = true →
     v_disk (verify dump_dict data_path d).2 = d
     ∧ pass_files (verify dump_dict data_path d).2 = dump_dict.*1).
Proof.
  split; [apply verify_ret_iff|].
  intros Hall%verify_ret_iff. unfold verify, verify_scan. cbn [snd].
  by rewrite verify_loop_all_passed.
Qed.

(** X2. Running [verify] again on the directory it left finds no crashed
    file, deletes nothing and returns what the first run returned: the
    files the first run removed are missing in the second. *)
Theorem verify_again_finds_no_crashed
    (dump_dict : list (string * dump_entry)) (data_path : string)
    (d : gmap string string) :
  let first := verify dump_dict data_path d in
  let second := verify dump_dict data_path (v_disk first.2) in
  crash_files second.2 = []
  ∧ v_disk second.2 = v_disk first.2
  ∧ second.1 = first.1.
Proof.
  intros first second.
  assert (∀ it, it ∈ dump_dict →
            classify data_path (v_disk first.2) it ≠ Crashed) as Hno.
  { subst first. unfold verify, verify_scan. cbn [snd].
    apply verify_loop_leaves_no_crashed. }
  destruct (verify_loop_no_crash data_path dump_dict
              {| pass_files := []; miss_files := []; crash_files := [];
                 v_disk := v_disk first.2 |} Hno) as [Hd Hc].
  split_and!; [done | done |].
  assert (first.1 = true
          ↔ Forall (λ it, classify data_path d it = Passed) dump_dict) as H1
    by apply verify_ret_iff.
  assert (second.1 = true
          ↔ Forall (λ it, classify data_path (v_disk first.2) it = Passed)
              dump_dict) as H2
    by apply verify_ret_iff.
  apply eq_true_iff_eq. rewrite H1, H2. clear H1 H2 Hno Hd Hc. split.
  - intros Hall. eapply Forall_impl; [exact Hall|].
    intros [file value] Hp. unfold classify in *. cbn [fst snd] in *.
    subst first. unfold verify, verify_scan in Hp. cbn [snd] in Hp.
    destruct (verify_loop_lookup data_path dump_dict
                {| pass_files := []; miss_files := []; crash_files := [];
                   v_disk := d |} (joinpath data_path file)) as [Hq|Hq];
      rewrite Hq in Hp; done.
  - intros Hall. subst first. unfold verify, verify_scan. cbn [snd].
    by rewrite verify_loop_all_passed.
Qed.
End verify_more.

Lemma verify_succeeds_iff_all_passed_witness :
  (verify (H := example_platform offline) example_manifest "data"
     complete_disk).1 = true
  ∧ v_disk (verify (H := example_platform offline) example_manifest "data"
              complete_disk).2 = complete_disk.
Proof.
  assert ((verify (H := example_platform offline) example_manifest "data"
             complete_disk).1 = true) as Hret by reflexivity.
  split; [exact Hret|].
  exact (proj1 (proj2 (verify_succeeds_iff_all_passed
                         (H := example_platform offline)
                         example_manifest "data" complete_disk) Hret)).
Defined.

(** ** More on the coordinator *)

Lemma slice_bound_range (n i : Z) : 0 <= n → 0 <= slice_bound n i <= n.
Proof. intros Hn. unfold slice_bound. destruct (Z.ltb_spec i 0); lia. Qed.

(** Any slice: element [i] is element [a + i] of the list, where [a] and
    [b] are the clamped bounds, as long as [a + i] is before [b]. *)
Lemma py_slice_lookup_bounds {A} (l : list A) (lo : Z) (hi : option Z) (i : nat) :
  let a := slice_bound (len l) lo in
  let b := from_option (slice_bound (len l)) (len l) hi in
  py_slice l lo hi !! i =
  if decide (a + Z.of_nat i < b) then l !! Z.to_nat (a + Z.of_nat i) else None.
Proof.
  intros a b. unfold py_slice. fold a b.
  pose proof (len_nonneg l) as Hn.
  pose proof (slice_bound_range (len l) lo Hn) as Ha. fold a in Ha.
  assert (0 <= b <= len l) as Hb.
  { subst b. destruct hi as [h|]; cbn; [by apply slice_bound_range | lia]. }
  case_decide as Hi.
  - rewrite lookup_take_lt by lia. rewrite lookup_drop. f_equal. lia.
  - apply lookup_take_ge. lia.
Qed.


Lemma py_slice_length {A} (l : list A) (lo : Z) (hi : option Z) :
  len (py_slice l lo hi) =
  Z.max 0 (from_option (slice_bound (len l)) (len l) hi - slice_bound (len l) lo).
Proof.
  unfold py_slice.
  pose proof (len_nonneg l) as Hn.
  pose proof (slice_bound_range (len l) lo Hn) as Ha.
  assert (0 <= from_option (slice_bound (len l)) (len l) hi <= len l) as Hb.
  { destruct hi as [h|]; cbn; [by apply slice_bound_range | lia]. }
  unfold len in *. rewrite length_take, length_drop. lia.
Qed.



Section coordinator_more.
Context `{!Platform}.


(** X4. With a start of at least 1 the number of tasks is the number of
    positions from [start] to the last position kept: [end] when it is
    positive and within the list, the number of names otherwise; it is
    zero when [start] lies beyond that position. *)
Theorem download_counts_positions
    (args : Args) (dump_dict : list (string * dump_entry)) :
  1 <= args_start args →
  let last :=
    if bool_decide (0 < args_end args <= len dump_dict)
    then args_end args else len dump_dict in
  len (download_files args dump_dict (args_start args) (args_end args))
  = Z.max 0 (last - args_start args + 1).
Proof.
  intros Hs last. unfold download_files.
  destruct (sorted_spec dump_dict.*1) as [_ Hperm].
  assert (len (sorted dump_dict.*1) = len dump_dict) as Hlen
    by (unfold len; by rewrite Hperm, length_fmap).
  pose proof (len_nonneg dump_dict) as Hn.
  subst last. rewrite Hlen.
  case_bool_decide as Hend.
  - rewrite bool_decide_true by lia. rewrite py_slice_length, Hlen.
    cbn [from_option]. unfold slice_bound.
    destruct (Z.ltb_spec (args_end args) 0), (Z.ltb_spec (args_start args - 1) 0);
      lia.
  - rewrite bool_decide_false by lia. rewrite py_slice_length, Hlen.
    cbn [from_option]. unfold slice_bound.
    destruct (Z.ltb_spec (args_start args - 1) 0); lia.
Qed.

(** X5. A start below 1 does not count from the front: [start - 1] is
    then a negative index, and the slice begins [1 - start] names before
    the end of the sorted list (at its front if it has fewer).  With
    [--start 0] and no usable [--end] only the last name is kept. *)
Theorem download_start_below_one_counts_from_the_end
    (args : Args) (dump_dict : list (string * dump_entry)) :
  args_start args <= 0 →
  let names := sorted dump_dict.*1 in
  let first := Z.max 0 (len dump_dict + args_start args - 1) in
  let last :=
    if bool_decide (0 < args_end args <= len dump_dict)
    then args_end args else len dump_dict in
  let files :=
    download_files args dump_dict (args_start args) (args_end args) in
  (∀ i : nat,
     files !! i =
     if decide (first + Z.of_nat i < last)
     then names !! Z.to_nat (first + Z.of_nat i) else None)
  ∧ (args_start args = 0 → ¬ (0 < args_end args <= len dump_dict) →
     files = drop (length names - 1) names).
Proof.
  intros Hs names first last files.
  destruct (sorted_spec dump_dict.*1) as [_ Hperm].
  assert (len names = len dump_dict) as Hlen
    by (unfold len; subst names; by rewrite Hperm, length_fmap).
  pose proof (len_nonneg dump_dict) as Hn.
  assert (slice_bound (len dump_dict) (args_start args - 1) = first) as Hfirst.
  { unfold slice_bound. destruct (Z.ltb_spec (args_start args - 1) 0); lia. }
  split.
  - intros i. subst files. unfold download_files. fold names.
    rewrite Hlen. subst last.
    case_bool_decide as Hend.
    + rewrite bool_decide_true by lia. rewrite py_slice_lookup_bounds.
      rewrite Hlen, Hfirst. cbn [from_option]. unfold slice_bound.
      destruct (Z.ltb_spec (args_end args) 0); [lia|].
      by rewrite Z.min_l by lia.
    + rewrite bool_decide_false by lia. rewrite py_slice_lookup_bounds.
      by rewrite Hlen, Hfirst.
  - intros H0 Hend. subst files. unfold download_files. fold names.
    rewrite Hlen. rewrite bool_decide_false by lia.
    unfold py_slice. rewrite Hlen, Hfirst. cbn [from_option].
    rewrite take_ge.
    + f_equal. unfold len in *. subst first. lia.
    + rewrite length_drop. unfold len in *. subst first. lia.
Qed.
End coordinator_more.

(** ** More on the pool of workers *)

Lemma issubclass_Exception (e : pyclass) : issubclass e Exception = true.
Proof. by destruct e. Qed.

Lemma truthy_PStr (s : string) : truthy (PStr s) = false ↔ s = "".
Proof.
  cbn. rewrite negb_false_iff. apply String.eqb_eq.
Qed.

(** [assign_task] on a free lock and lists of equal length never raises,
    and leaves lists of equal length. *)
Lemma assign_task_balanced (q : WikiDumpTask) :
  lock q = false → length (url_list q) = length (file_list q) →
  lock (assign_task q).2 = false
  ∧ length (url_list (assign_task q).2) = length (file_list (assign_task q).2)
  ∧ total_num (assign_task q).2 = total_num q
  ∧ ((assign_task q).1 = Returned (PNone, PNone, PNone, PInt (total_num q))
     ∨ ∃ u f n, (assign_task q).1
                = Returned (PStr u, PPath f, PInt n, PInt (total_num q))).
Proof.
  intros Hl Hlen. unfold assign_task. rewrite Hl.
  destruct (url_list q) as [|u us] eqn:Hu, (file_list q) as [|f fs] eqn:Hf;
    try done.
  - rewrite bool_decide_false by (unfold len; cbn; lia).
    cbn [fst snd]. rewrite Hu, Hf. auto.
  - rewrite bool_decide_true by (rewrite len_cons; pose proof (len_nonneg us); lia).
    cbn in *. split_and!; [done | lia | done |]. right. eauto.
Qed.

(** The tasks in hand after one worker has moved. *)
Lemma omap_held_insert (ts : list pc) (i : nat) (p p' : pc) :
  ts !! i = Some p →
  (held p' = held p → omap held (<[i := p']> ts) = omap held ts)
  ∧ (held p' = None → omap held (<[i := p']> ts) ⊆+ omap held ts)
  ∧ (held p = None → ∀ t, held p' = Some t →
     omap held (<[i := p']> ts) ≡ₚ omap held ts ++ [t]).
Proof.
  intros Hi. pose proof (lookup_lt_Some _ _ _ Hi) as Hlt.
  rewrite insert_take_drop by done.
  pose proof (take_drop_middle ts i p Hi) as E.
  set (a := take i ts) in *. set (b := drop (S i) ts) in *. clearbody a b.
  subst ts. rewrite !omap_app. cbn [omap list_omap].
  split_and!.
  - by intros ->.
  - intros ->. apply submseteq_skips_l. destruct (held p); [|done].
    by apply submseteq_cons.
  - intros -> t ->. rewrite <- app_assoc. apply Permutation_app_head.
    cbn. apply Permutation_cons_append.
Qed.

Section pool_more.
Context `{!Platform}.

(** X6. In every state a pool started by [download] reaches, the lock of
    the queue is free between steps, the queue has as many file names as
    URLs and the total it was built with, and no worker has died of
    anything but the unbound [opener] of a run without proxy: once past
    its prologue a worker ends only by leaving its loop. *)
Theorem pool_of_download_never_dies_after_startup
    (args : Args) (dump_dict : list (string * dump_entry)) (data_path : string)
    (start end_ thread_num : Z) (wm : wikipediaMirror) (d : gmap string string)
    (s0 : list pc * world) (ts : list pc) (w : world) :
  download args dump_dict data_path start end_ thread_num wm d = Some s0 →
  rtc (pool_step args) s0 (ts, w) →
  lock (tasks w) = false
  ∧ length (url_list (tasks w)) = length (file_list (tasks w))
  ∧ total_num (tasks w) = total_num (tasks s0.2)
  ∧ total_num (tasks s0.2)
    = len (download_files args dump_dict start end_)
  ∧ Forall (λ p, ∀ e, p = Died e →
              e = UnboundLocalError ∧ args_proxies args = "") ts.
Proof.
  intros Hdl Hr. unfold download, download_queue in Hdl.
  destruct (download_lists_Some dump_dict data_path
              (download_files args dump_dict start end_)) as (urls & Hl & Hf).
  { intros f. apply download_files_names. }
  rewrite Hl in Hdl. cbn in Hdl. injection Hdl as <-.
  pose proof (Forall2_length _ _ _ Hf) as Hlen.
  cbn [snd tasks] in *.
  apply (pool_invariant args
           (λ s, lock (tasks s.2) = false
                 ∧ length (url_list (tasks s.2)) = length (file_list (tasks s.2))
                 ∧ total_num (tasks s.2) = len urls
                 ∧ Forall (λ p, ∀ e, p = Died e →
                             e = UnboundLocalError ∧ args_proxies args = "")
                     s.1) _ _) in Hr.
  - cbn [fst snd] in Hr. destruct Hr as (? & ? & ? & ?).
    split_and!; [done.. | | done]. cbn. unfold len. by rewrite Hlen.
  - cbn. split_and!; [done | by rewrite length_fmap | done |].
    by apply Forall_replicate.
  - clear. intros i p p' ts w w' (Hl & Hlen & Ht & Hts) Hi Hrun Hstep.
    cbn [fst snd] in *.
    assert (tasks w' = tasks w ∧ (∀ e, p' = Died e →
                                    e = UnboundLocalError ∧ args_proxies args = "")
            ∨ tasks w' = (assign_task (tasks w)).2 ∧ (∀ e, p' ≠ Died e)) as Hcase.
    { destruct p; cbn [worker_step] in Hstep; try done.
      - destruct (truthy (PStr (args_proxies args))) eqn:Htr;
          injection Hstep as <- <-; left; (split; [done|]); [done|].
        intros e [= <-]. split; [done|]. by apply truthy_PStr.
      - destruct (assign_task_balanced (tasks w) Hl Hlen) as (_ & _ & _ & Hres).
        destruct (assign_task (tasks w)) as [r q]. cbn [fst snd] in *.
        right. destruct Hres as [-> | (u & f & n & ->)].
        + cbn in Hstep. by injection Hstep as <- <-.
        + destruct (truthy (PStr u)); cbn [negb] in Hstep;
            by injection Hstep as <- <-.
      - destruct (negb (exists_ (disk w) file_name));
          injection Hstep as <- <-; by left.
      - destruct (get_mirror WIKIMEDIA_MIRRORS (WM w)) as [[m|e|] wm'];
          try rewrite issubclass_Exception in Hstep;
          injection Hstep as <- <-; by left.
      - destruct (urlretrieve _ _ _ _) as [[e|] d'];
          try rewrite issubclass_Exception in Hstep;
          injection Hstep as <- <-; by left. }
    destruct (assign_task_balanced (tasks w) Hl Hlen) as (Hl' & Hlen' & Ht' & _).
    assert (Forall (λ p, ∀ e, p = Died e →
                      e = UnboundLocalError ∧ args_proxies args = "")
              (<[i := p']> ts)) as Hts'.
    { apply Forall_insert; [done|]. destruct Hcase as [[_ ?]|[_ Hne]]; [done|].
      intros e He. by destruct (Hne e). }
    destruct Hcase as [[-> _]|[-> _]]; split_and!; try done. congruence.
Qed.

(** X7. However the workers of a pool interleave, the tasks are handed
    out from the front of the list the queue was built from, each to one
    worker: in every state reached the queue holds the list without its
    first [k] tasks, for some [k], and the tasks the workers have in hand
    are, counted with repetitions, among these first [k]; so the tasks
    in hand together with the tasks still queued never exceed the
    original list. *)
Theorem pool_hands_out_each_task_once
    (args : Args) (l : list (string * string)) (n : nat)
    (w0 : world) (ts : list pc) (w : world) :
  tasks w0 = WikiDumpTask_of l →
  rtc (pool_step args) (replicate n Starting, w0) (ts, w) →
  ∃ k : nat,
    (k ≤ length l)%nat
    ∧ tasks w = {| lock := false; url_list := (drop k l).*1;
                   file_list := (drop k l).*2; total_num := len l |}
    ∧ omap held ts ⊆+ take k l
    ∧ omap held ts ++ drop k l ⊆+ l.
Proof.
  intros Hq Hr.
  assert (∃ k : nat,
            (k ≤ length l)%nat
            ∧ tasks w = {| lock := false; url_list := (drop k l).*1;
                           file_list := (drop k l).*2; total_num := len l |}
            ∧ omap held ts ⊆+ take k l) as (k & Hk & Ht & Hh).
  2: { exists k. split_and!; [done.. |].
       etrans; [apply submseteq_skips_r, Hh | by rewrite take_drop]. }
  apply (pool_invariant args
           (λ s, ∃ k : nat,
              (k ≤ length l)%nat
              ∧ tasks s.2 = {| lock := false; url_list := (drop k l).*1;
                               file_list := (drop k l).*2; total_num := len l |}
              ∧ omap held s.1 ⊆+ take k l) _ _) in Hr; [done | |].
  - exists 0%nat. cbn [fst snd]. split_and!; [lia | |].
    + rewrite Hq. unfold WikiDumpTask_of, WikiDumpTask_init, len.
      by rewrite length_fmap.
    + clear. induction n; [done | by cbn].
  - clear. intros i p p' ts w w' (k & Hk & Ht & Hh) Hi Hrun Hstep.
    cbn [fst snd] in *.
    destruct (omap_held_insert ts i p p' Hi) as (Hsame & Hdrop & Hadd).
    destruct p; cbn [worker_step] in Hstep; try done.
    + exists k. destruct (truthy (PStr (args_proxies args)));
        injection Hstep as <- <-; (split_and!; [done | done |]);
        by rewrite Hsame.
    + rewrite Ht in Hstep.
      destruct (drop k l) as [|[u f] rest] eqn:Hd.
      * cbn in Hstep. injection Hstep as <- <-.
        exists k. split_and!; [done | by rewrite Hd |]. by rewrite Hsame.
      * cbn [fmap list_fmap fst snd] in Hstep.
        rewrite assign_task_cons in Hstep.
        assert (l !! k = Some (u, f)) as Hlk.
        { rewrite <- (Nat.add_0_r k), <- lookup_drop. by rewrite Hd. }
        pose proof (lookup_lt_Some _ _ _ Hlk) as Hlt.
        assert (rest = drop (S k) l) as ->.
        { rewrite (drop_S _ _ _ Hlk) in Hd. by injection Hd. }
        exists (S k). rewrite (take_S_r _ _ _ Hlk).
        destruct (truthy (PStr u)); cbn [negb] in Hstep;
          injection Hstep as <- <-; (split_and!; [lia | done |]).
        -- rewrite (Hadd eq_refl (u, f) eq_refl).
           by apply submseteq_skips_r.
        -- rewrite Hsame by done. by apply submseteq_inserts_r.
    + exists k. destruct (negb (exists_ (disk w) file_name));
        injection Hstep as <- <-; (split_and!; [done | done |]).
      * by rewrite Hsame.
      * etrans; [by apply Hdrop | done].
    + exists k.
      destruct (get_mirror WIKIMEDIA_MIRRORS (WM w)) as [[m|e|] wm'];
        try rewrite issubclass_Exception in Hstep;
        injection Hstep as <- <-; (split_and!; [done | done |]);
        by rewrite Hsame.
    + exists k.
      destruct (urlretrieve _ _ _ _) as [[e|] d'];
        try rewrite issubclass_Exception in Hstep;
        injection Hstep as <- <-; (split_and!; [done | done |]).
      * by rewrite Hsame.
      * etrans; [by apply Hdrop | done].
Qed.
End pool_more.

(** ** More on the mirror cursor and the retry loop *)

(** From a cursor that is not negative, a call on a non-empty list
    returns a member and leaves the cursor within the list. *)
Lemma get_mirror_nonneg (mirrors : list string) (self : wikipediaMirror) :
  mirrors ≠ [] → 0 <= index self →
  ∃ m i,
    get_mirror mirrors self = (Returned m, {| index := i |})
    ∧ m ∈ mirrors ∧ 0 <= i < len mirrors
    ∧ (len mirrors - 1 <= index self → i = 0)
    ∧ (index self < len mirrors - 1 → i = index self + 1).
Proof.
  intros Hne Hi. pose proof (len_pos _ Hne) as HM. unfold get_mirror.
  set (i := if bool_decide (index self < len mirrors - 1)
            then index self + 1 else 0).
  assert (0 <= i < len mirrors) as Hr by (subst i; case_bool_decide; lia).
  destruct (py_getitem_in_range mirrors i Hr) as [-> [m Hm]]. rewrite Hm.
  exists m, i. split_and!; [done | by eapply list_elem_of_lookup_2 | lia.. | |];
    subst i; case_bool_decide; lia.
Qed.

Section retry_more.
Context `{!Platform}.

Lemma worker_stopped (fuel : nat) (args : Args) (p : pc) (w : world) :
  running p = false → worker fuel args p w = (p, w).
Proof. intros Hp. destruct fuel; [done|]. cbn [worker]. by rewrite Hp. Qed.

(** Running for [a + b] steps is running for [a] and then for [b]. *)
Lemma worker_add (a b : nat) (args : Args) (p : pc) (w : world) :
  worker (a + b) args p w =
  worker b args (worker a args p w).1 (worker a args p w).2.
Proof.
  revert p w. induction a as [|a IH]; intros p w; [done|].
  cbn [Nat.add worker]. destruct (running p) eqn:Hp.
  - destruct (worker_step args p w) as [p' w']. apply IH.
  - cbn [fst snd]. by rewrite worker_stopped.
Qed.

(** One round of the retry loop when the transfer fails. *)
Lemma retry_round (args : Args) (u f : string) (w : world) :
  (∀ n url file d, (urlretrieve n url file d).1 ≠ None) →
  0 <= index (WM w) →
  ∃ m w',
    worker_step args (Retrying u f) w = (Fetching (m +:+ u) u f, w')
    ∧ worker 2 args (Retrying u f) w
      = (Retrying u f,
         {| tasks := tasks w; WM := WM w';
            disk := (urlretrieve (length (requests w)) (m +:+ u) f (disk w)).2;
            requests := (m +:+ u, f) :: requests w;
            installed_opener := installed_opener w |})
    ∧ m ∈ WIKIMEDIA_MIRRORS ∧ 0 <= index (WM w') ∧ tasks w' = tasks w.
Proof.
  intros Hfail Hi.
  destruct (get_mirror_nonneg WIKIMEDIA_MIRRORS (WM w)) as (m & i & Hg & Hm & Hr & _);
    [done | done |].
  exists m. eexists.
  split; [cbn [worker_step]; rewrite Hg; reflexivity|].
  cbn [worker running worker_step]. rewrite Hg.
  cbn [running worker_step requests disk tasks WM installed_opener].
  specialize (Hfail (length (requests w)) (m +:+ u) f (disk w)).
  destruct (urlretrieve (length (requests w)) (m +:+ u) f (disk w)) as [[e|] d'];
    [|done].
  rewrite issubclass_Exception. cbn [snd index WM tasks].
  split_and!; [done | done | lia | done].
Qed.

(** X8. The retry loop has no limit: when every transfer fails, a worker
    that has begun a task is back at the top of the loop after every two
    steps, having asked one more mirror each time, for the same file;
    whatever the number of steps, it has not left the loop, has claimed
    nothing else and the queue is as it was. *)
Theorem worker_retries_without_limit (args : Args) (u f : string) (w : world) :
  (∀ n url file d, (urlretrieve n url file d).1 ≠ None) →
  0 <= index (WM w) →
  (∀ k : nat, ∃ w',
     worker (2 * k) args (Retrying u f) w = (Retrying u f, w')
     ∧ tasks w' = tasks w
     ∧ (∃ rs, requests w' = rs ++ requests w ∧ length rs = k
              ∧ Forall (λ r, r.2 = f
                             ∧ ∃ m, m ∈ WIKIMEDIA_MIRRORS ∧ r.1 = m +:+ u) rs))
  ∧ (∀ fuel : nat,
       let r := worker fuel args (Retrying u f) w in
       (r.1 = Retrying u f ∨ ∃ dump_url, r.1 = Fetching dump_url u f)
       ∧ tasks r.2 = tasks w).
Proof.
  intros Hfail Hi.
  assert (∀ k w, 0 <= index (WM w) → ∃ w',
     worker (2 * k) args (Retrying u f) w = (Retrying u f, w')
     ∧ tasks w' = tasks w ∧ 0 <= index (WM w')
     ∧ (∃ rs, requests w' = rs ++ requests w ∧ length rs = k
              ∧ Forall (λ r, r.2 = f
                             ∧ ∃ m, m ∈ WIKIMEDIA_MIRRORS ∧ r.1 = m +:+ u) rs))
    as Hrounds.
  { clear w Hi. induction k as [|k IH]; intros w Hi.
    - exists w. split_and!; [done.. |]. exists []. by split_and!.
    - destruct (retry_round args u f w Hfail Hi)
        as (m & w1 & _ & Hw & Hm & Hi1 & _).
      replace (2 * S k)%nat with (2 + 2 * k)%nat by lia.
      rewrite worker_add, Hw. cbn [fst snd].
      match goal with
      | |- context [worker _ _ _ ?w2] =>
          destruct (IH w2 Hi1)
            as (w' & Hrun & Ht & Hi' & rs & Hrs & Hlen & Hall)
      end.
      exists w'. split_and!; [done.. |].
      exists (rs ++ [(m +:+ u, f)]). cbn [requests] in Hrs.
      split_and!.
      + by rewrite Hrs, <- app_assoc.
      + rewrite length_app. cbn. lia.
      + apply Forall_app. split; [done|]. constructor; [|done]. eauto. }
  split.
  - intros k. destruct (Hrounds k w Hi) as (w' & ? & ? & _ & ?). eauto.
  - intros fuel r. subst r.
    destruct (Nat.Even_or_Odd fuel) as [[k ->]|[k ->]].
    + destruct (Hrounds k w Hi) as (w' & -> & Ht & _). cbn. auto.
    + destruct (Hrounds k w Hi) as (w' & Hrun & Ht & Hi' & _).
      rewrite worker_add, Hrun. cbn [fst snd worker running].
      destruct (retry_round args u f w' Hfail Hi') as (m & w1 & -> & _ & _ & _ & Ht1).
      cbn. split; [right; eauto | congruence].
Qed.

End retry_more.

(** ** A worker and a server that answers *)

Section download_more.
Context `{!Platform}.

(** The loop of one worker over a queue when every transfer succeeds and
    writes [body n url] to its destination. *)
Lemma worker_loop_downloads (body : nat → string → string) (args : Args) :
  (∀ n url file d, urlretrieve n url file d = (None, <[file := body n url]> d)) →
  ∀ (l : list (string * string)) t wm d rq op,
    Forall (λ t, t.1 ≠ "") l → 0 <= index wm →
    ∃ w',
      worker (4 * length l + 1) args Claiming
        {| tasks := {| lock := false; url_list := l.*1; file_list := l.*2;
                       total_num := t |};
           WM := wm; disk := d; requests := rq; installed_opener := op |}
      = (Exited, w')
      ∧ tasks w' = {| lock := false; url_list := []; file_list := [];
                      total_num := t |}
      ∧ installed_opener w' = op
      ∧ (∀ f, f ∈ l.*2 → is_Some (disk w' !! f))
      ∧ (∀ q c, d !! q = Some c → disk w' !! q = Some c)
      ∧ (∀ q c, disk w' !! q = Some c →
           d !! q = Some c
           ∨ ∃ u n m, (u, q) ∈ l ∧ m ∈ WIKIMEDIA_MIRRORS
                      ∧ c = body n (m +:+ u))
      ∧ ∃ rs, requests w' = rs ++ rq
              ∧ (length rs ≤ length l)%nat
              ∧ Forall (λ r, d !! r.2 = None ∧ r.2 ∈ l.*2) rs.
Proof.
  intros Hok. induction l as [|[u f] l IH]; intros t wm d rq op Hl Hwm.
  - eexists. split; [reflexivity|]. cbn.
    split_and!; try done.
    + by intros f ?%elem_of_nil.
    + by left.
    + exists []. by split_and!.
  - apply Forall_cons in Hl as [Hu Hl]. cbn [fst] in Hu.
    replace (4 * length ((u, f) :: l) + 1)%nat
      with (S (S ((4 * length l + 1) + 2))) by (cbn [length]; lia).
    cbn [worker running worker_step tasks fmap list_fmap fst snd].
    rewrite assign_task_cons.
    assert (truthy (PStr u) = true) as ->
      by (cbn; by apply negb_true_iff, String.eqb_neq).
    cbn [negb running worker_step disk WM requests installed_opener tasks].
    destruct (d !! f) as [c0|] eqn:Hf.
    + (* the file is there: skipped *)
      assert (exists_ d f = true) as ->
        by (unfold exists_; apply bool_decide_eq_true; rewrite Hf; by eexists).
      cbn [negb]. rewrite worker_add.
      destruct (IH (t) wm d rq op Hl Hwm)
        as (w' & -> & Ht & Hop & Hall & Hkeep & Hfrom & rs & Hrs & Hlen & Hrsall).
      cbn [fst snd]. rewrite worker_stopped by done.
      exists w'. split_and!; try done.
      * intros g [->|Hg]%elem_of_cons; [|by apply Hall].
        rewrite (Hkeep _ _ Hf). by eexists.
      * intros q c Hq. destruct (Hfrom q c Hq) as [?|(u' & n & m & Hin & ?)];
          [by left|]. right. exists u', n, m. split; [by right | done].
      * exists rs. split_and!; [done | cbn [length]; lia |].
        eapply Forall_impl; [exact Hrsall|]. intros r [? ?].
        split; [done | by right].
    + (* the file is not there: one transfer *)
      assert (exists_ d f = false) as ->.
      { unfold exists_. apply bool_decide_eq_false. rewrite Hf. by intros [? ?]. }
      cbn [negb].
      replace (4 * length l + 1 + 2)%nat with (S (S (4 * length l + 1))) by lia.
      cbn [worker running worker_step WM].
      destruct (get_mirror_nonneg WIKIMEDIA_MIRRORS wm)
        as (m & i & Hg & Hm & Hi & _); [done | done |].
      rewrite Hg. cbn [running worker_step requests disk]. rewrite Hok.
      cbn [tasks WM installed_opener].
      destruct (IH t {| index := i |} (<[f := body (length rq) (m +:+ u)]> d)
                  ((m +:+ u, f) :: rq) op Hl ltac:(cbn; lia))
        as (w' & -> & Ht & Hop & Hall & Hkeep & Hfrom & rs & Hrs & Hlen & Hrsall).
      exists w'. split_and!; try done.
      * intros g [->|Hin]%elem_of_cons; [|by apply Hall].
        rewrite (Hkeep f (body (length rq) (m +:+ u))); [by eexists|].
        apply lookup_insert_eq.
      * intros q c Hq. apply Hkeep. rewrite lookup_insert_ne; [done|].
        intros <-. congruence.
      * intros q c Hq. destruct (Hfrom q c Hq) as [Hq'|(u' & n & m' & Hin & ?)].
        -- destruct (decide (f = q)) as [<-|Hne].
           ++ rewrite lookup_insert_eq in Hq'. injection Hq' as <-.
              right. exists u, (length rq), m. split; [left | done].
           ++ rewrite lookup_insert_ne in Hq' by done. by left.
        -- right. exists u', n, m'. split; [by right | done].
      * exists (rs ++ [(m +:+ u, f)]). split_and!.
        -- by rewrite Hrs, <- app_assoc.
        -- rewrite length_app. cbn [length]. lia.
        -- apply Forall_app. split.
           ++ eapply Forall_impl; [exact Hrsall|]. intros r [Hr1 Hr2].
              split; [|by right].
              destruct (decide (f = r.2)) as [<-|Hne]; [done|].
              by rewrite lookup_insert_ne in Hr1.
           ++ constructor; [|done]. cbn. split; [done | left].
Qed.


(** X10. When every transfer succeeds, a worker that gets past its
    prologue, run alone on a queue of [N] tasks with usable URLs, leaves
    its loop within [4 N + 2] steps with the queue empty and every
    destination path in the directory.  It writes no path that was there
    at the start: those files keep their content, every other file in
    the directory afterwards was sent by a mirror for a task of the
    queue, and the transfers, at most [N], all went to paths of the queue
    that were absent at the start. *)
Theorem worker_downloads_what_is_missing
    (body : nat → string → string) (args : Args)
    (l : list (string * string)) (w0 : world) :
  (∀ n url file d, urlretrieve n url file d = (None, <[file := body n url]> d)) →
  args_proxies args ≠ "" →
  tasks w0 = WikiDumpTask_of l →
  Forall (λ t, t.1 ≠ "") l →
  0 <= index (WM w0) →
  ∃ w',
    worker (4 * length l + 2) args Starting w0 = (Exited, w')
    ∧ url_list (tasks w') = []
    ∧ (∀ t, t ∈ l → exists_ (disk w') t.2 = true)
    ∧ (∀ q c, disk w0 !! q = Some c → disk w' !! q = Some c)
    ∧ (∀ q c, disk w' !! q = Some c →
         disk w0 !! q = Some c
         ∨ ∃ u n m, (u, q) ∈ l ∧ m ∈ WIKIMEDIA_MIRRORS ∧ c = body n (m +:+ u))
    ∧ ∃ rs, requests w' = rs ++ requests w0
            ∧ (length rs ≤ length l)%nat
            ∧ Forall (λ r, disk w0 !! r.2 = None ∧ r.2 ∈ l.*2) rs.
Proof.
  intros Hok Hproxy Htasks Hl Hwm.
  replace (4 * length l + 2)%nat with (S (4 * length l + 1)) by lia.
  cbn [worker running worker_step].
  assert (truthy (PStr (args_proxies args)) = true) as ->
    by (cbn; by apply negb_true_iff, String.eqb_neq).
  rewrite Htasks. unfold WikiDumpTask_of, WikiDumpTask_init.
  destruct (worker_loop_downloads body args Hok l (len l.*1) (WM w0) (disk w0)
              (requests w0) (Some (args_proxies args)) Hl Hwm)
    as (w' & -> & Ht & _ & Hall & Hkeep & Hfrom & Hrs).
  exists w'. split_and!; [done | by rewrite Ht | | done..].
  intros [u f] Hin. unfold exists_. apply bool_decide_eq_true, Hall.
  by apply (list_elem_of_fmap_2 snd) in Hin.
Qed.
End download_more.

Lemma worker_downloads_what_is_missing_witness :
  ∃ w',
    worker (H := example_platform reliable) 6 proxy_args Starting one_task_world
    = (Exited, w')
    ∧ url_list (tasks w') = []
    ∧ exists_ (disk w') "data/A.7z" = true.
Proof.
  assert (Forall (λ t : string * string, t.1 ≠ "")
            [("/enwiki/A.7z", "data/A.7z")]) as Hl
    by (constructor; [discriminate | constructor]).
  destruct (worker_downloads_what_is_missing
              (H := example_platform reliable) (λ _ _, "whole") proxy_args
              [("/enwiki/A.7z", "data/A.7z")] one_task_world
              ltac:(intros; reflexivity) ltac:(discriminate) eq_refl Hl
              ltac:(cbn; lia))
    as (w' & Hrun & Hq & Hall & _).
  exists w'. split_and!; [exact Hrun | exact Hq |].
  apply (Hall ("/enwiki/A.7z", "data/A.7z")). left.
Defined.

(** ** Download, then verify *)





Section download_then_verify.
Context `{!Platform}.

End download_then_verify.


(** ** The chunked read of [md5] *)

Lemma string_app_cons (a : Ascii.ascii) (s1 s2 : string) :
  String a s1 +:+ s2 = String a (s1 +:+ s2).
Proof. reflexivity. Qed.

Lemma string_app_nil_r (s : string) : s +:+ "" = s.
Proof. induction s as [|a s IH]; [done|]. by rewrite string_app_cons, IH. Qed.

Lemma string_app_assoc (s1 s2 s3 : string) :
  (s1 +:+ s2) +:+ s3 = s1 +:+ (s2 +:+ s3).
Proof.
  induction s1 as [|a s1 IH]; [done|]. by rewrite !string_app_cons, IH.
Qed.

Lemma string_take_drop (n : nat) (s : string) :
  string_take n s +:+ string_drop n s = s.
Proof.
  revert s. induction n as [|n IH]; intros [|a s]; try done.
  cbn [string_take string_drop]. by rewrite string_app_cons, IH.
Qed.

Lemma string_take_length (n : nat) (s : string) :
  String.length (string_take n s) = Nat.min n (String.length s).
Proof.
  revert s. induction n as [|n IH]; intros [|a s]; try done.
  cbn [string_take String.length]. rewrite IH. lia.
Qed.

Lemma string_drop_length (n : nat) (s : string) :
  String.length (string_drop n s) = (String.length s - n)%nat.
Proof.
  revert s. induction n as [|n IH]; intros [|a s]; try done. apply IH.
Qed.

Lemma string_length_nil (s : string) : String.length s = 0%nat ↔ s = "".
Proof. by destruct s. Qed.

(** With a positive size and a read more than the file has bytes, the
    chunks are not empty, not longer than the size, and make up the
    file. *)
Lemma read_chunks_spec (size fuel : nat) (rest : string) :
  (0 < size)%nat → (String.length rest < fuel)%nat →
  foldr String.app "" (read_chunks fuel size rest) = rest
  ∧ Forall (λ chunk, chunk ≠ "" ∧ (String.length chunk ≤ size)%nat)
      (read_chunks fuel size rest).
Proof.
  intros Hsize. revert rest. induction fuel as [|fuel IH]; intros rest Hfuel;
    [lia|].
  cbn [read_chunks read].
  pose proof (string_take_length size rest) as Htl.
  pose proof (string_drop_length size rest) as Hdl.
  pose proof (string_take_drop size rest) as Htd.
  case_decide as Hempty.
  - rewrite Hempty in Htl. cbn in Htl.
    assert (String.length rest = 0%nat) as ->%string_length_nil by lia. done.
  - assert (String.length (string_take size rest) ≠ 0%nat) as Hne
      by (by rewrite string_length_nil).
    destruct (IH (string_drop size rest)) as [Hcat Hall]; [lia|].
    cbn [foldr]. rewrite Hcat. split; [done|].
    constructor; [|done]. split; [done | lia].
Qed.

Section md5_more.
Context `{!Platform} `{!Hash}.

(** X12. The loop of [md5] reads the file to its end: the chunks it
    feeds to the hash object are not empty, hold at most 40960000 bytes
    each and make up the content of the file, in order.  For a hash
    object on which feeding two chunks is feeding their concatenation,
    the digest returned is therefore the digest of the whole content, and
    a file that cannot be opened gives no digest. *)
Theorem md5_hashes_the_whole_file (d : gmap string string) (file : string) :
  (∀ s, hash_update s "" = s) →
  (∀ s a b, hash_update (hash_update s a) b = hash_update s (a +:+ b)) →
  (∀ c, d !! file = Some c →
     foldr String.app "" (read_chunks (S (String.length c)) chunk_size c) = c
     ∧ Forall (λ chunk, chunk ≠ "" ∧ (String.length chunk ≤ chunk_size)%nat)
         (read_chunks (S (String.length c)) chunk_size c))
  ∧ md5_file d file
    = (λ c, hash_hexdigest (hash_update hash_new c)) <$> d !! file
  ∧ ((∀ c, md5_digest c = hash_hexdigest (hash_update hash_new c)) →
     md5_file d file = md5 d file).
Proof.
  intros Hnil Happ.
  assert (0 < chunk_size)%nat as Hsize by (unfold chunk_size; lia).
  assert (∀ chunks s,
            foldl hash_update s chunks
            = hash_update s (foldr String.app "" chunks)) as Hfold.
  { induction chunks as [|x xs IH]; intros s; cbn [foldl foldr]; [done|].
    by rewrite IH, Happ. }
  assert (md5_file d file
          = (λ c, hash_hexdigest (hash_update hash_new c)) <$> d !! file) as Hmd5.
  { unfold md5_file. destruct (d !! file) as [c|]; [|done].
    cbn [mbind option_bind fmap option_fmap option_map].
    rewrite Hfold.
    by rewrite (proj1 (read_chunks_spec chunk_size _ c Hsize (Nat.lt_succ_diag_r _))). }
  split_and!; [|done|].
  - intros c _. apply read_chunks_spec; [done | lia].
  - intros Hdigest. rewrite Hmd5. unfold md5.
    destruct (d !! file); [|done]. cbn. by rewrite Hdigest.
Qed.
End md5_more.

Lemma md5_hashes_the_whole_file_witness :
  @md5_file concat_hash example_disk "data/A.7z" = Some "aaa".
Proof.
  exact (proj1 (proj2 (@md5_hashes_the_whole_file
           (example_platform offline) concat_hash
           example_disk "data/A.7z"
           string_app_nil_r string_app_assoc))).
Defined.

(** ** [main] and the completion marker *)

Lemma exists_true (d : gmap string string) (p c : string) :
  d !! p = Some c → exists_ d p = true.
Proof. intros Hp. unfold exists_. apply bool_decide_eq_true. by eexists. Qed.

Lemma exists_false (d : gmap string string) (p : string) :
  d !! p = None → exists_ d p = false.
Proof.
  intros Hp. unfold exists_. apply bool_decide_eq_false. rewrite Hp.
  by intros [? ?].
Qed.

Section main_props.
Context `{!Platform}.
Variable json_files : string → string → option (list (string * dump_entry)).

(** X13. With [COMPLETE.txt] in the data directory [main] neither
    verifies nor downloads, whatever the options: when the manifest file
    is there too it ends at once and leaves the directory as it is.  But
    the manifest is looked for before the marker: when the manifest file
    is absent [main] first transfers it, and if that transfer fails
    [main] ends with its exception although the marker is there. *)
Theorem main_stops_at_the_marker
    (args : Args) (version_flag stamp : string) (d : gmap string string)
    (data : string) :
  let data_path := joinpath (args_data_path args) version_flag in
  let dump_status_file := joinpath data_path "dumpstatus.json" in
  exists_ d data_path = false →
  d !! joinpath data_path "COMPLETE.txt" = Some data →
  (is_Some (d !! dump_status_file) →
   main json_files args version_flag stamp d = AlreadyComplete data d)
  ∧ (d !! dump_status_file = None →
     ∀ e d1,
       urlretrieve 0
         ("https://dumps.wikimedia.org/enwiki/" +:+ version_flag
            +:+ "/dumpstatus.json") dump_status_file d = (Some e, d1) →
       main json_files args version_flag stamp d = FetchFailed e d1).
Proof.
  intros data_path dump_status_file Hdir Hmark. split.
  - intros [c Hc]. unfold main. fold data_path dump_status_file.
    rewrite Hdir, (exists_true _ _ _ Hc). cbn [negb]. by rewrite Hmark.
  - intros Hc e d1 Hfetch. unfold main. fold data_path dump_status_file.
    rewrite Hdir, (exists_false _ _ Hc). cbn [negb]. by rewrite Hfetch.
Qed.

(** X14. In verify mode, with the manifest file there and readable and
    no marker yet, [main] writes [COMPLETE.txt] exactly when every file
    of the manifest is in the data directory with the expected digest;
    the marker then holds the time stamp and nothing else in the
    directory has changed.  Otherwise no marker is written, and the
    directory has lost at most files. *)
Theorem main_writes_the_marker_iff_all_passed
    (args : Args) (version_flag stamp : string) (d : gmap string string)
    (c : string) (dump_dict : list (string * dump_entry)) :
  let data_path := joinpath (args_data_path args) version_flag in
  let space_stats_flag := joinpath data_path "COMPLETE.txt" in
  exists_ d data_path = false →
  d !! joinpath data_path "dumpstatus.json" = Some c →
  json_files c (args_compress_type args) = Some dump_dict →
  d !! space_stats_flag = None →
  args_verify args = true →
  ∃ result d',
    main json_files args version_flag stamp d = Verified result d'
    ∧ (result = true
       ↔ Forall (λ it, classify data_path d it = Passed) dump_dict)
    ∧ d' !! space_stats_flag = (if result then Some stamp else None)
    ∧ (result = true → d' = <[space_stats_flag := stamp]> d)
    ∧ (result = false → ∀ q, d' !! q = None ∨ d' !! q = d !! q).
Proof.
  intros data_path space_stats_flag Hdir Hc Hjson Hmark Hverify.
  unfold main. fold data_path space_stats_flag.
  rewrite Hdir, (exists_true _ _ _ Hc). cbn [negb].
  rewrite Hmark, Hc. cbn [mbind option_bind]. rewrite Hjson, Hverify.
  destruct (verify dump_dict data_path d) as [result st] eqn:Hv.
  assert (result = (verify dump_dict data_path d).1) as Hres by (by rewrite Hv).
  assert (st = (verify dump_dict data_path d).2) as Hst by (by rewrite Hv).
  eexists _, _. split; [reflexivity|].
  assert (∀ q, v_disk st !! q = None ∨ v_disk st !! q = d !! q) as Hsub.
  { intros q. rewrite Hst. unfold verify, verify_scan. cbn [snd].
    apply (verify_loop_lookup data_path dump_dict
             {| pass_files := []; miss_files := []; crash_files := [];
                v_disk := d |} q). }
  split_and!.
  - rewrite Hres. apply verify_ret_iff.
  - destruct result; [apply lookup_insert_eq|].
    destruct (Hsub space_stats_flag) as [?|Hq]; [done | by rewrite Hq].
  - intros ->. f_equal. rewrite Hst. unfold verify, verify_scan. cbn [snd].
    symmetry in Hres. apply verify_ret_iff in Hres.
    by rewrite verify_loop_all_passed.
  - by intros ->.
Qed.
End main_props.

Section pool_writes.
Context `{!Platform}.

(** X15. With the [urlretrieve] of the standard library the workers
    write nowhere but at the destination paths of the queue: in every
    state a pool reaches, every other path of the directory is as it was
    at the start.  A download thus never creates [COMPLETE.txt] unless
    the manifest names a file that lands on that path. *)
Theorem pool_writes_only_destination_paths
    (server : nat → string → response) (args : Args) (n : nat)
    (w0 : world) (ts : list pc) (w : world) :
  urlretrieve = std_urlretrieve server →
  rtc (pool_step args) (replicate n Starting, w0) (ts, w) →
  ∀ q, q ∉ file_list (tasks w0) → disk w !! q = disk w0 !! q.
Proof.
  intros Hlib Hr.
  apply (pool_invariant args
           (λ s, Forall (λ f, f ∈ file_list (tasks w0)) (file_list (tasks s.2))
                 ∧ Forall (λ p, ∀ t, held p = Some t → t.2 ∈ file_list (tasks w0))
                     s.1
                 ∧ ∀ q, q ∉ file_list (tasks w0) →
                        disk s.2 !! q = disk w0 !! q) _ _) in Hr.
  - by destruct Hr as (_ & _ & ?).
  - cbn [fst snd]. split_and!; [by apply Forall_forall | | done].
    by apply Forall_replicate.
  - clear Hr ts w. intros i p p' ts w w' (Hfl & Hts & Hframe) Hi Hrun Hstep.
    cbn [fst snd] in *.
    pose proof (Forall_lookup_1 _ _ _ _ Hts Hi) as Hp.
    assert (Forall (λ f, f ∈ file_list (tasks w0)) (file_list (tasks w'))
            ∧ (∀ t, held p' = Some t → t.2 ∈ file_list (tasks w0))
            ∧ ∀ q, q ∉ file_list (tasks w0) → disk w' !! q = disk w0 !! q)
      as (? & ? & ?); [|split_and!; [done | by apply Forall_insert | done]].
    destruct p; cbn [worker_step held] in *; try done.
    + destruct (truthy _); injection Hstep as <- <-; done.
    + destruct (assign_task_files _ (tasks w) Hfl) as [Hfl' Hf].
      destruct (assign_task (tasks w)) as [[[[[url fn] cur] tot]|e|] q];
        cbn [fst snd] in *; [| by injection Hstep as <- <- ..].
      destruct (negb (truthy url)); [by injection Hstep as <- <-|].
      destruct url, fn; injection Hstep as <- <-; cbn [held tasks disk];
        (split_and!; [done | try done | done]).
      intros t [= <-]. by eapply Hf.
    + destruct (negb _); injection Hstep as <- <-; done.
    + destruct (get_mirror WIKIMEDIA_MIRRORS (WM w)) as [[m|e|] wm'];
        try destruct (issubclass e Exception);
        injection Hstep as <- <-; done.
    + rewrite Hlib in Hstep. unfold std_urlretrieve in Hstep.
      specialize (Hp _ eq_refl). cbn [snd] in Hp.
      assert (∀ b q, q ∉ file_list (tasks w0) →
                <[file_name := b]> (disk w) !! q = disk w0 !! q) as Hins.
      { intros b q Hq. rewrite lookup_insert_ne; [by apply Hframe|].
        by intros <-. }
      destruct (server _ _) as [|body|declared body|body];
        try case_bool_decide;
        try rewrite issubclass_Exception in Hstep;
        injection Hstep as <- <-; cbn [held tasks disk];
        (split_and!; [done | try done; by intros t [= <-] | by auto]).
Qed.
End pool_writes.

(** ** The queue on any two lists *)

(** The queue after [k] calls, whatever the two lists: a URL is removed
    by every call that finds one, a file name only as long as there are
    URLs. *)
Lemma assign_tasks_state (k : nat) (us fs : list string) (t : Z) :
  (assign_tasks k {| lock := false; url_list := us; file_list := fs;
                     total_num := t |}).2
  = {| lock := false; url_list := drop k us;
       file_list := drop (Nat.min k (length us)) fs; total_num := t |}.
Proof.
  revert us fs. induction k as [|k IH]; intros us fs; [done|].
  cbn [assign_tasks].
  destruct (assign_task {| lock := false; url_list := us; file_list := fs;
                           total_num := t |}) as [r q1] eqn:E.
  assert ((assign_tasks k q1).2
          = {| lock := false; url_list := drop (S k) us;
               file_list := drop (Nat.min (S k) (length us)) fs;
               total_num := t |}) as Hq.
  { unfold assign_task in E. cbn [lock url_list file_list total_num] in E.
    destruct us as [|u us].
    - rewrite bool_decide_false in E by (unfold len; cbn; lia).
      injection E as <- <-. rewrite IH. cbn [length].
      by rewrite !Nat.min_0_r, !drop_nil.
    - rewrite bool_decide_true in E
        by (rewrite len_cons; pose proof (len_nonneg us); lia).
      destruct fs as [|f fs]; injection E as <- <-; rewrite IH; [|done].
      by rewrite !drop_nil. }
  destruct (assign_tasks k q1) as [rs q2]. exact Hq.
Qed.

(** X16. A queue built from any two lists answers call number [k + 1]
    by position [k] of the lists: a task, with position [k + 1] and the
    number of URLs as total, when both lists reach that far; an
    [IndexError] when there is a URL but no file name for it; and
    [None]s when the URLs are used up, even if file names are left.  The
    lock is free after every call, also after one that raised. *)
Theorem assign_task_by_position (files urls : list string) (k : nat) :
  let before := (assign_tasks k (WikiDumpTask_init files urls)).2 in
  (assign_task before).1 =
    match urls !! k with
    | None => Returned (PNone, PNone, PNone, PInt (len urls))
    | Some u =>
        match files !! k with
        | Some f =>
            Returned (PStr u, PPath f, PInt (Z.of_nat k + 1), PInt (len urls))
        | None => Raised IndexError
        end
    end
  ∧ lock (assign_task before).2 = false
  ∧ url_list (assign_task before).2 = drop (S k) urls.
Proof.
  intros before. subst before. unfold WikiDumpTask_init.
  rewrite assign_tasks_state.
  split_and!.
  - destruct (urls !! k) as [u|] eqn:Hu.
    + pose proof (lookup_lt_Some _ _ _ Hu) as Hlt.
      rewrite (drop_S _ _ _ Hu), Nat.min_l by lia.
      destruct (files !! k) as [f|] eqn:Hf.
      * rewrite (drop_S _ _ _ Hf), assign_task_cons. cbn [fst].
        replace (len urls - len (drop (S k) urls)) with (Z.of_nat k + 1);
          [done | unfold len; rewrite length_drop; lia].
      * apply lookup_ge_None in Hf. rewrite (drop_ge files) by lia.
        unfold assign_task. cbn [lock url_list file_list total_num].
        by rewrite bool_decide_true
          by (rewrite len_cons;
              pose proof (len_nonneg (drop (S k) urls)); lia).
    + apply lookup_ge_None in Hu. rewrite (drop_ge urls) by lia.
      by rewrite assign_task_empty.
  - by apply assign_task_state.
  - match goal with
    | |- url_list (assign_task ?q).2 = _ =>
        rewrite (proj2 (proj2 (assign_task_state q eq_refl)))
    end.
    cbn [url_list]. apply tail_drop.
Qed.

(** A queue with a URL too many: the second call raises. *)
Example assign_task_without_file_name :
  (assign_tasks 3 (WikiDumpTask_init ["data/a.7z"] ["/a.7z"; "/b.7z"])).1
  = [ Returned (PStr "/a.7z", PPath "data/a.7z", PInt 1, PInt 2);
      Raised IndexError;
      Returned (PNone, PNone, PNone, PInt 2) ].
Proof. reflexivity. Qed.

(** ** Runs of one worker as runs of the pool *)

Section pool_runs.
Context `{!Platform}.

(** What one worker does alone in [k] steps is a run of the pool that
    holds only this worker. *)
Lemma worker_is_pool_run (k : nat) (args : Args) (p : pc) (w : world) :
  rtc (pool_step args) ([p], w)
    ([(worker k args p w).1], (worker k args p w).2).
Proof.
  revert p w. induction k as [|k IH]; intros p w; [done|].
  cbn [worker]. destruct (running p) eqn:Hrun; [|done].
  destruct (worker_step args p w) as [p' w'] eqn:Hstep.
  eapply rtc_l; [|apply IH].
  by apply (pool_step_thread args 0 p p' [p] w w').
Qed.
End pool_runs.

(** ** Instances *)


Lemma download_counts_positions_witness :
  1 <= args_start example_args
  ∧ len (download_files example_args five_manifest 2 4) = 3.
Proof.
  assert (1 <= args_start example_args) as Hs by (vm_compute; discriminate).
  split; [exact Hs|].
  exact (download_counts_positions example_args five_manifest Hs).
Defined.

Lemma download_start_below_one_counts_from_the_end_witness :
  args_start start_zero_args <= 0
  ∧ download_files start_zero_args five_manifest 0 (-1) = ["p5.7z"].
Proof.
  assert (args_start start_zero_args <= 0) as Hs by (vm_compute; discriminate).
  split; [exact Hs|].
  refine (proj2 (download_start_below_one_counts_from_the_end
                   start_zero_args five_manifest Hs) eq_refl _).
  cbn [start_zero_args args_end]. lia.
Defined.

Lemma pool_of_download_never_dies_after_startup_witness :
  ∃ s0,
    download (H := example_platform reliable) example_args five_manifest
      "data" 2 4 1 wikipediaMirror_init ∅ = Some s0
    ∧ total_num
        (tasks (worker (H := example_platform reliable) 7 example_args
                  Starting s0.2).2) = 3.
Proof.
  eexists. split; [reflexivity|].
  destruct (pool_of_download_never_dies_after_startup
              (H := example_platform reliable)
              example_args five_manifest "data" 2 4 1 wikipediaMirror_init ∅
              _ _ _ eq_refl
              (worker_is_pool_run (H := example_platform reliable) 7
                 example_args Starting _))
    as (_ & _ & Ht & _).
  exact Ht.
Defined.

Lemma pool_hands_out_each_task_once_witness :
  ∃ k : nat,
    (k ≤ 1)%nat
    ∧ tasks (worker (H := example_platform reliable) 2 proxy_args Starting
               one_task_world).2
      = {| lock := false;
           url_list := (drop k [("/enwiki/A.7z", "data/A.7z")]).*1;
           file_list := (drop k [("/enwiki/A.7z", "data/A.7z")]).*2;
           total_num := 1 |}
    ∧ omap held
        [(worker (H := example_platform reliable) 2 proxy_args Starting
            one_task_world).1]
      ⊆+ take k [("/enwiki/A.7z", "data/A.7z")].
Proof.
  destruct (pool_hands_out_each_task_once (H := example_platform reliable)
              proxy_args [("/enwiki/A.7z", "data/A.7z")] 1 one_task_world
              _ _ eq_refl
              (worker_is_pool_run (H := example_platform reliable) 2
                 proxy_args Starting one_task_world))
    as (k & Hk & Ht & Hh & _).
  exists k. split_and!; [exact Hk | exact Ht | exact Hh].
Defined.

Lemma worker_retries_without_limit_witness :
  tasks (worker (H := example_platform offline) 7 proxy_args
           (Retrying "/enwiki/A.7z" "data/A.7z") one_task_world).2
  = tasks one_task_world.
Proof.
  exact (proj2 (proj2 (worker_retries_without_limit
           (H := example_platform offline) proxy_args
           "/enwiki/A.7z" "data/A.7z" one_task_world
           ltac:(intros; discriminate) ltac:(cbn; lia)) 7%nat)).
Defined.


Lemma main_stops_at_the_marker_witness :
  main (H := example_platform offline) example_json default_args
    "20240101" "2024-02-01 00:00:00" marked_dir
  = AlreadyComplete "2024-01-02 03:04:05" marked_dir.
Proof.
  exact (proj1 (main_stops_at_the_marker (H := example_platform offline)
                  example_json default_args "20240101" "2024-02-01 00:00:00"
                  marked_dir "2024-01-02 03:04:05" eq_refl eq_refl)
           (ex_intro _ "{}" eq_refl)).
Defined.

Lemma main_writes_the_marker_iff_all_passed_witness :
  ∃ result d',
    main (H := example_platform offline) example_json verify_args
      "20240101" "2024-02-01 00:00:00" verified_dir = Verified result d'
    ∧ d' !! "./data//20240101/COMPLETE.txt"
      = (if result then Some "2024-02-01 00:00:00" else None).
Proof.
  destruct (main_writes_the_marker_iff_all_passed
              (H := example_platform offline) example_json verify_args
              "20240101" "2024-02-01 00:00:00" verified_dir "{}"
              example_manifest eq_refl eq_refl eq_refl eq_refl eq_refl)
    as (result & d' & Hmain & _ & Hmark & _).
  exists result, d'. split; [exact Hmain | exact Hmark].
Defined.

Lemma pool_writes_only_destination_paths_witness :
  ("data/COMPLETE.txt" ∉ file_list (tasks one_task_world))
  ∧ disk (worker (H := example_platform reliable) 6 proxy_args Starting
            one_task_world).2 !! "data/COMPLETE.txt"
    = disk one_task_world !! "data/COMPLETE.txt".
Proof.
  assert ("data/COMPLETE.txt" ∉ file_list (tasks one_task_world)) as Hq.
  { intros Hin%list_elem_of_In. cbn in Hin. by destruct Hin as [|[]]. }
  split; [exact Hq|].
  exact (pool_writes_only_destination_paths (H := example_platform reliable)
           reliable proxy_args 1 one_task_world _ _ eq_refl
           (worker_is_pool_run (H := example_platform reliable) 6 proxy_args
              Starting one_task_world)
           "data/COMPLETE.txt" Hq).
Defined.
